(** * ESP32 balloon telemetry: firmware sampling loop and dashboard engine

    A shallow embedding of [ESP32_Telemetry.ino]: the C++ sampling loop of the
    board (module [Firmware]) and the JavaScript engine of the page it serves
    (module [Dashboard]), followed by the properties proved about them.

    Numbers are modelled as the code has them:
    - a C [float] is an IEEE-754 binary32 value, a [spec_float] of the Standard
      Library operated with precision 24 and exponent bound 128;
    - a JavaScript Number is a binary64 value, the kernel's primitive [float];
    - [uint32_t] values and [Date.now()] readings are integers in [Z], with the
      32-bit wrap-around written out. *)

From Stdlib Require Import ZArith List String Ascii Bool Lia DecimalString.
From Stdlib Require Import Floats SpecFloat.
Import ListNotations.

Set Warnings "-inexact-float".

Local Open Scope Z_scope.

(** ** C single-precision floats *)

Module F32.

Definition prec : Z := 24.
Definition emax : Z := 128.

Definition t : Type := spec_float.

Definition mul : t -> t -> t := SFmul prec emax.
Definition add : t -> t -> t := SFadd prec emax.
Definition sub : t -> t -> t := SFsub prec emax.
Definition div : t -> t -> t := SFdiv prec emax.

(** [x < y], [x <= y], [x > y], [x >= y] of C: false as soon as an operand
    is a NaN. *)
Definition lt (x y : t) : bool := SFltb x y.
Definition le (x y : t) : bool := SFleb x y.
Definition gt (x y : t) : bool := SFltb y x.
Definition ge (x y : t) : bool := SFleb y x.

Definition isnan (x : t) : bool :=
  match x with S754_nan => true | _ => false end.

Definition isfinite (x : t) : bool :=
  match x with S754_nan | S754_infinity _ => false | _ => true end.

Definition NAN : t := S754_nan.

(** An integer converted to [float] (round to nearest, ties to even). *)
Definition of_Z (z : Z) : t := binary_normalize prec emax z 0 false.

(** The literal [n / 10^k] written in decimal with an [f] suffix: the
    division of two exactly representable integers is correctly rounded, so
    it is the binary32 value nearest to the decimal. *)
Definition dec (n : Z) (k : nat) : t := div (of_Z n) (of_Z (10 ^ Z.of_nat k)).

End F32.

Declare Scope f32_scope.
Delimit Scope f32_scope with f32.
Infix "*" := F32.mul : f32_scope.
Infix "+" := F32.add : f32_scope.
Infix "-" := F32.sub : f32_scope.
Infix "/" := F32.div : f32_scope.
Infix "<?" := F32.lt : f32_scope.
Infix "<=?" := F32.le : f32_scope.
Infix ">?" := F32.gt (at level 70, no associativity) : f32_scope.
Infix ">=?" := F32.ge (at level 70, no associativity) : f32_scope.

(** ** The firmware: sampling loop, ready LED and JSON builder *)

Module Firmware.

Abbreviation float := F32.t.

Definition uint32 (z : Z) : Z := z mod 2 ^ 32.

(** *** Telemetry state (the sketch's globals) *)

Record Globals : Type := mkGlobals {
  s_alt_m : float;        (* MPL altitude (m) *)
  s_mplTempC : float;     (* MPL temp (C) *)
  s_pres_hPa : float;     (* MPL pressure (hPa) *)
  s_dhtTempC : float;     (* DHT ambient (C) *)
  s_dhtHum : float;       (* DHT %RH *)
  s_envObjC : float;      (* MLX object temp (C) *)
  g_lastSampleMs : Z;
  g_lastDhtMs : Z;
  g_overheat : bool;
  g_ledMode : Z;
  mplOk : bool;
  g_mlxOK : bool
}.

Definition TELEMETRY_PERIOD_MS : Z := 1000.
Definition DHT_PERIOD_MS : Z := 1200.

(** [readDhtOnce]: the two library reads, then the validity test. The
    argument is what [dht.readTemperature()] and [dht.readHumidity()]
    return on this attempt. *)
Definition readDhtOnce (lib : float * float) : bool * float * float :=
  let tC := fst lib in
  let rh := snd lib in
  (negb (F32.isnan tC) && negb (F32.isnan rh)
     && (rh >=? F32.of_Z 0)%f32 && (rh <=? F32.of_Z 100)%f32,
   tC, rh).

Definition OVERHEAT_ON_F : float := F32.of_Z 200.
Definition OVERHEAT_OFF_F : float := F32.of_Z 195.

Definition c2f (c : float) : float :=
  (c * F32.of_Z 9 / F32.of_Z 5 + F32.of_Z 32)%f32.

Definition scalePressureToHectoPascal (raw : float) : float :=
  if (raw >? F32.of_Z 2000)%f32 then (raw / F32.of_Z 100)%f32
  else if (raw <? F32.of_Z 50)%f32 then (raw * F32.of_Z 100)%f32
  else raw.

(** *** Ready LED *)

Definition LED_OFF : Z := 0.
Definition LED_SOLID : Z := 1.
Definition LED_BLINK_SLOW : Z := 2.
Definition LED_BLINK_FAST : Z := 3.
Definition LED_DOUBLE : Z := 4.

(** [serviceReadyLed]: the level written to the LED pin when [millis()]
    reads [now] (a [uint32_t]). The function's static [level] is assigned on
    every path before it is written, so the level depends on the mode and
    the clock only. *)
Definition serviceReadyLed (ledMode : Z) (now : Z) : bool :=
  if ledMode =? LED_OFF then false
  else if ledMode =? LED_SOLID then true
  else if ledMode =? LED_BLINK_SLOW then
    let period := 1000 in
    negb (Z.land (now / (period / 2)) 1 =? 0)
  else if ledMode =? LED_BLINK_FAST then
    let period := 100 in
    negb (Z.land (now / (period / 2)) 1 =? 0)
  else if ledMode =? LED_DOUBLE then
    let cycle := 1200 in
    let t := now mod cycle in
    (t <? 120) || ((240 <=? t) && (t <? 360))
  else false.

(** The number of low-to-high changes of the LED level over the [len]
    milliseconds that follow the reading [from] of [millis()], the clock
    stepping as the [uint32_t] it is. *)
Fixpoint rising_edges (ledMode : Z) (from : Z) (len : nat) : nat :=
  match len with
  | O => O
  | S len' =>
      ((if negb (serviceReadyLed ledMode from)
           && serviceReadyLed ledMode (uint32 (from + 1)) then 1 else 0)
       + rising_edges ledMode (uint32 (from + 1)) len')%nat
  end.

(** *** MLX90614 object temperature *)

(** [mlxReadTempC]: [word] is what [mlxReadWord] delivers ([None] when the
    bus transaction fails). The result is [Some tC] when the function
    returns [true]; its out-parameter is read by the caller in that case
    only. *)
Definition mlxReadTempC (word : option Z) : option float :=
  match word with
  | None => None
  | Some raw =>
      let tC := (F32.of_Z raw * F32.dec 2 2 - F32.dec 27315 2)%f32 in
      if (tC >? SFopp (F32.of_Z 100))%f32 && (tC <? F32.of_Z 300)%f32
      then Some tC else None
  end.

(** *** One pass of [loop()] *)

(** What the outside world answers during one pass. *)
Record Bus : Type := mkBus {
  millis_led : Z;                   (* millis() inside serviceReadyLed *)
  millis : Z;                       (* millis() read by loop() *)
  mpl_getAltitude : float;
  mpl_getTemperature : float;
  mpl_getPressure : float;
  mlx_word : option Z;              (* mlxReadWord of the object register *)
  dht_read : nat -> float * float   (* library reads of the i-th attempt *)
}.

Definition loop_mpl (b : Bus) (g : Globals) : Globals :=
  if mplOk g then
    let alt := mpl_getAltitude b in
    let tC := mpl_getTemperature b in
    let pres := mpl_getPressure b in
    mkGlobals
      (if negb (F32.isnan alt) then alt else s_alt_m g)
      (if negb (F32.isnan tC) then tC else s_mplTempC g)
      (if negb (F32.isnan pres) then scalePressureToHectoPascal pres
       else s_pres_hPa g)
      (s_dhtTempC g) (s_dhtHum g) (s_envObjC g)
      (g_lastSampleMs g) (g_lastDhtMs g) (g_overheat g) (g_ledMode g)
      (mplOk g) (g_mlxOK g)
  else g.

(** The overheat LED logic (with hysteresis): the new [g_overheat] and
    [g_ledMode] for an envelope temperature [envF] in degrees Fahrenheit. *)
Definition overheat (envF : float) (st : bool * Z) : bool * Z :=
  let '(over, led) := st in
  if negb over && (envF >=? OVERHEAT_ON_F)%f32 then (true, LED_BLINK_FAST)
  else if over && (envF <=? OVERHEAT_OFF_F)%f32 then (false, LED_SOLID)
  else (over, led).

(** The overheat states left by a series of envelope temperatures, one
    per successful MLX read. *)
Fixpoint overheat_trace (envFs : list float) (st : bool * Z)
  : list (bool * Z) :=
  match envFs with
  | [] => []
  | envF :: rest =>
      let st' := overheat envF st in st' :: overheat_trace rest st'
  end.

Definition loop_mlx (b : Bus) (g : Globals) : Globals :=
  if g_mlxOK g then
    match mlxReadTempC (mlx_word b) with
    | Some tCobj =>
        let st :=
          if F32.isfinite tCobj
          then overheat (c2f tCobj) (g_overheat g, g_ledMode g)
          else (g_overheat g, g_ledMode g) in
        mkGlobals (s_alt_m g) (s_mplTempC g) (s_pres_hPa g)
          (s_dhtTempC g) (s_dhtHum g) tCobj
          (g_lastSampleMs g) (g_lastDhtMs g) (fst st) (snd st)
          (mplOk g) (g_mlxOK g)
    | None => g
    end
  else g.

(** The retry loop [for (i = 0; i < 3 && !ok; ++i)]: [n] attempts left,
    the next one being attempt [i]. [Some (t, h)] when an attempt
    succeeded, with the values it left in [t] and [h]. *)
Fixpoint dht_attempts (n i : nat) (read : nat -> float * float)
  : option (float * float) :=
  match n with
  | O => None
  | S n' =>
      let '(ok, t, h) := readDhtOnce (read i) in
      if ok then Some (t, h) else dht_attempts n' (S i) read
  end.

Definition loop_dht (b : Bus) (g : Globals) : Globals :=
  if DHT_PERIOD_MS <=? uint32 (millis b - g_lastDhtMs g) then
    match dht_attempts 3 0 (dht_read b) with
    | Some (t, h) =>
        mkGlobals (s_alt_m g) (s_mplTempC g) (s_pres_hPa g)
          t h (s_envObjC g)
          (g_lastSampleMs g) (millis b) (g_overheat g) (g_ledMode g)
          (mplOk g) (g_mlxOK g)
    | None =>                             (* else keep prior values *)
        mkGlobals (s_alt_m g) (s_mplTempC g) (s_pres_hPa g)
          (s_dhtTempC g) (s_dhtHum g) (s_envObjC g)
          (g_lastSampleMs g) (millis b) (g_overheat g) (g_ledMode g)
          (mplOk g) (g_mlxOK g)
    end
  else g.

(** The LED service and the sampling part of [loop()]; the pass returns
    the level [serviceReadyLed] writes and the globals it leaves. The
    refresh of the display that ends [loop()] has globals of its own and
    is [loop_oled] below; [loop_pass] is the whole function. *)
Definition loop (b : Bus) (g : Globals) : bool * Globals :=
  let level := serviceReadyLed (g_ledMode g) (millis_led b) in
  let now := millis b in
  if TELEMETRY_PERIOD_MS <=? uint32 (now - g_lastSampleMs g) then
    let g := mkGlobals (s_alt_m g) (s_mplTempC g) (s_pres_hPa g)
               (s_dhtTempC g) (s_dhtHum g) (s_envObjC g)
               now (g_lastDhtMs g) (g_overheat g) (g_ledMode g)
               (mplOk g) (g_mlxOK g) in
    (level, loop_dht b (loop_mlx b (loop_mpl b g)))
  else (level, g).

(** *** JSON builder *)

Local Open Scope string_scope.

(** The double-quote character (code 34), escaped inside the sketch's
    string literals. *)
Definition dq : string := String "034" EmptyString.

(** [String((uint32_t)millis())]: an unsigned integer in decimal. *)
Definition String_uint32 (z : Z) : string :=
  NilZero.string_of_uint (N.to_uint (Z.to_N (uint32 z))).

Section JsonBuilder.

(** The Arduino core's [String(float value, unsigned int decimalPlaces)]
    constructor: the decimal rendering of [value] with [decimalPlaces]
    digits after the point. It belongs to the core, not to the sketch. *)
Variable String_float : float -> nat -> string.

Definition buildTelemetryJson (g : Globals) (millis : Z) : string :=
  let envC := s_envObjC g in
  (* Decide ambient from DHT (preferred) else MPL *)
  let haveDht := negb (F32.isnan (s_dhtTempC g)) in
  let ambC := if haveDht then s_dhtTempC g else s_mplTempC g in
  let ambSrc := if haveDht then "DHT" else "MPL" in
  let json := "{" in
  let json := json ++ dq ++ "envelopeTempF" ++ dq ++ ":" in
  let json := json ++ (if F32.isnan envC then "null"
                       else String_float (c2f envC) 1) in
  let json := json ++ "," in
  let json := json ++ dq ++ "ambientTempF" ++ dq ++ ":" in
  let json := json ++ (if F32.isnan ambC then "null"
                       else String_float (c2f ambC) 1) in
  let json := json ++ "," in
  let json := json ++ dq ++ "humidityPct" ++ dq ++ ":" in
  let json := json ++ (if F32.isnan (s_dhtHum g) then "null"
                       else String_float (s_dhtHum g) 0) in
  let json := json ++ "," in
  let json := json ++ dq ++ "pressurehPa" ++ dq ++ ":" in
  let json := json ++ (if F32.isnan (s_pres_hPa g) then "null"
                       else String_float (s_pres_hPa g) 1) in
  let json := json ++ "," in
  let json := json ++ dq ++ "altitudeM" ++ dq ++ ":" in
  let json := json ++ (if F32.isnan (s_alt_m g) then "null"
                       else String_float (s_alt_m g) 1) in
  let json := json ++ "," in
  let json := json ++ dq ++ "ambientSource" ++ dq ++ ":" ++ dq in
  let json := json ++ ambSrc in
  let json := json ++ dq ++ "," in
  let json := json ++ dq ++ "timestamp" ++ dq ++ ":" in
  let json := json ++ String_uint32 millis in
  let json := json ++ "}" in
  json.

End JsonBuilder.

(** The text of the record in terms of its seven values. *)
Definition member (key value : string) : string :=
  dq ++ key ++ dq ++ ":" ++ value.

Definition wire_record (env amb hum pres alt src ts : string) : string :=
  "{" ++ member "envelopeTempF" env ++ ","
      ++ member "ambientTempF" amb ++ ","
      ++ member "humidityPct" hum ++ ","
      ++ member "pressurehPa" pres ++ ","
      ++ member "altitudeM" alt ++ ","
      ++ member "ambientSource" (dq ++ src ++ dq) ++ ","
      ++ member "timestamp" ts ++ "}".

(** *** Runs of the loop, status page *)

Local Open Scope Z_scope.

(** The globals [setup()] leaves when it returns at [millis() = now]:
    [mplOk_] and [mlxOK_] are what the probes of the two I2C sensors found;
    no reading is stored yet and the LED is solid. *)
Definition after_setup (mplOk_ mlxOK_ : bool) (now : Z) : Globals :=
  mkGlobals F32.NAN F32.NAN F32.NAN F32.NAN F32.NAN F32.NAN
    now 0 false LED_SOLID mplOk_ mlxOK_.

(** Successive passes of [loop()], one [Bus] each. *)
Definition loops (bs : list Bus) (g : Globals) : Globals :=
  fold_left (fun g b => snd (loop b g)) bs g.

(** The number of milliseconds at which the LED is high among the [len]
    that start at the reading [from] of [millis()], the clock stepping as
    the [uint32_t] it is (after 4294967295 comes 0). *)
Fixpoint high_ms (ledMode : Z) (from : Z) (len : nat) : nat :=
  match len with
  | O => O
  | S len' =>
      ((if serviceReadyLed ledMode from then 1 else 0)
       + high_ms ledMode (uint32 (from + 1)) len')%nat
  end.

(** [f] holds on the [n] integers from [from] on. *)
Fixpoint all_from (f : Z -> bool) (from : Z) (n : nat) : bool :=
  match n with
  | O => true
  | S n' => f from && all_from f (from + 1) n'
  end.

(** What [mlxReadTempC] and the overheat logic make of a raw word of the
    MLX, against bounds on the word itself: accepted between [lo] and [hi],
    at or above the overheat threshold from [on] on, at or below the
    recovery threshold up to [off]. *)
Definition mlx_word_check (lo hi on off : Z) (raw : Z) : bool :=
  match mlxReadTempC (Some raw) with
  | Some tC =>
      (lo <=? raw) && (raw <=? hi)
      && Bool.eqb (c2f tC >=? OVERHEAT_ON_F)%f32 (on <=? raw)
      && Bool.eqb (c2f tC <=? OVERHEAT_OFF_F)%f32 (raw <=? off)
  | None => (raw <? lo) || (hi <? raw)
  end.

(** The overheat flag, the LED mode and the stored envelope temperature
    agree: the LED blinks fast exactly when the flag is set, a set flag
    goes with a temperature above the recovery threshold and a cleared one
    with a temperature below the overheat threshold (or none). *)
Definition overheat_inv (g : Globals) : Prop :=
  g_ledMode g = (if g_overheat g then LED_BLINK_FAST else LED_SOLID) /\
  (g_overheat g = true ->
     F32.le (c2f (s_envObjC g)) (F32.of_Z 195) = false) /\
  (g_overheat g = false ->
     F32.ge (c2f (s_envObjC g)) (F32.of_Z 200) = false).

Local Open Scope string_scope.

(** Convert bool -> "[OK]" or "[X]" *)
Definition okBox (ok : bool) : string := if ok then "[OK]" else "[X]".

(** [oledStatusPage], with the display present ([g_oledOK]): the three
    "online" flags it derives from the current data, and the three sensor
    rows it prints below the fixed header lines. *)
Definition online (g : Globals) : bool * bool * bool :=
  let mplOnline :=
    mplOk g && F32.isfinite (s_alt_m g) && F32.isfinite (s_pres_hPa g) in
  let dhtOnline :=
    F32.isfinite (s_dhtTempC g) && F32.isfinite (s_dhtHum g) in
  let mlxOnline := g_mlxOK g && F32.isfinite (s_envObjC g) in
  (mplOnline, dhtOnline, mlxOnline).

Definition oledStatusPage (g : Globals) : list string :=
  let '(mplOnline, dhtOnline, mlxOnline) := online g in
  ["MPL: " ++ okBox mplOnline;
   "MLX: " ++ okBox mlxOnline;
   "DHT11: " ++ okBox dhtOnline].

(** *** The display refresh of [loop()] *)

(** [g_oledOK] and [g_lastOledMs]. *)
Record Oled : Type := mkOled {
  g_oledOK : bool;
  g_lastOledMs : Z
}.

Definition OLED_PERIOD_MS : Z := 1000.

(** The block that ends [loop()]; [m1] and [m2] are its two readings of
    [millis()]. The result is what it leaves of the display's globals, and
    the page it draws when it draws one. *)
Definition loop_oled (m1 m2 : Z) (g : Globals) (o : Oled)
  : Oled * option (list string) :=
  if g_oledOK o && (OLED_PERIOD_MS <=? uint32 (m1 - g_lastOledMs o))%Z then
    (mkOled (g_oledOK o) m2, Some (oledStatusPage g))
  else (o, None).

(** The whole of [loop()]: the LED service and the sampling, then the
    refresh of the display, which sees the globals the sampling left. *)
Definition loop_pass (b : Bus) (m1 m2 : Z) (s : Globals * Oled)
  : bool * (Globals * Oled) * option (list string) :=
  let '(level, g') := loop b (fst s) in
  let '(o', page) := loop_oled m1 m2 g' (snd s) in
  (level, (g', o'), page).

End Firmware.

(** ** The dashboard: the page's JavaScript engine *)

Module Dashboard.

Local Open Scope string_scope.
Local Open Scope Z_scope.

(** *** JavaScript values and Number builtins *)

Abbreviation number := PrimFloat.float.

(** The values a numeric key of the telemetry object can hold: the
    firmware's JSON has a number or [null] there, and reading a key the
    object lacks gives [undefined]. *)
Inductive jsval : Type :=
| JUndefined
| JNull
| JNum (x : number).

(** [Number(v)] *)
Definition Number (v : jsval) : number :=
  match v with
  | JUndefined => nan
  | JNull => zero
  | JNum x => x
  end.

(** [Number.isFinite(v)]: no coercion, a non-number is not finite. *)
Definition Number_isFinite (v : jsval) : bool :=
  match v with
  | JNum x => is_finite x
  | _ => false
  end.

(** Truthiness of a number: every number but NaN, [+0] and [-0]. *)
Definition truthy (x : number) : bool := negb (is_nan x || is_zero x).

(** [x || d] on numbers. *)
Definition or_else (x d : number) : number := if truthy x then x else d.

(** An integer as a Number: [Date.now()] readings and integer literals. *)
Definition of_Z (z : Z) : number :=
  SF2Prim (binary_normalize FloatOps.prec FloatOps.emax z 0 false).

(** **** [Number.prototype.toFixed] *)

Definition digits (n : Z) : string :=
  NilZero.string_of_uint (N.to_uint (Z.to_N n)).

Fixpoint zeros (k : nat) : string :=
  match k with
  | O => EmptyString
  | S k' => "0" ++ zeros k'
  end.

(** The decimal digits of [n], padded to more than [fd] digits, with the
    point before the last [fd] of them. *)
Definition point (n : Z) (fd : nat) : string :=
  let m := digits n in
  if (fd =? 0)%nat then m
  else
    let m := if (length m <=? fd)%nat
             then zeros (fd + 1 - length m) ++ m else m in
    let k := length m in
    substring 0 (k - fd) m ++ "." ++ substring (k - fd) fd m.

(** The integer [n] for which [n / 10^fd] is nearest to [m * 2^e], the
    larger one when two are as near. *)
Definition scaled (m : positive) (e : Z) (fd : nat) : Z :=
  let p := Z.pos m * 10 ^ Z.of_nat fd in
  if 0 <=? e then p * 2 ^ e
  else (2 * p + 2 ^ (- e)) / 2 ^ (1 - e).

(** [Number::toString] of an integer Number [X >= 10^21] whose binary64
    value is [x]: the shortest digit string [s] (of [k] digits) with
    [s * 10^(n-k)] reading back as [x], nearest to [X], in exponent form. *)
Definition reads_back (x : spec_float) (v : Z) : bool :=
  match SFcompare (binary_normalize FloatOps.prec FloatOps.emax v 0 false) x with
  | Some Eq => true
  | _ => false
  end.

Definition candidates (x : spec_float) (X : Z) (nd k : Z) : list (Z * Z) :=
  filter
    (fun sn => let '(s, n) := sn in
       (10 ^ (k - 1) <=? s) && (s <? 10 ^ k) && reads_back x (s * 10 ^ (n - k)))
    (flat_map
       (fun n => let s0 := X / 10 ^ (n - k) in [(s0, n); (s0 + 1, n)])
       [nd; nd + 1]).

Definition nearest (X : Z) (k : Z) (c1 c2 : Z * Z) : Z * Z :=
  let d (c : Z * Z) := Z.abs (fst c * 10 ^ (snd c - k) - X) in
  if d c1 <? d c2 then c1
  else if d c2 <? d c1 then c2
  else if Z.even (fst c1) then c1 else c2.

Fixpoint shortest (x : spec_float) (X nd : Z) (fuel : nat) (k : Z)
  : option (Z * Z * Z) :=
  match fuel with
  | O => None
  | S fuel' =>
      match candidates x X nd k with
      | [] => shortest x X nd fuel' (k + 1)
      | c :: cs => let '(s, n) := fold_left (nearest X k) cs c in
                   Some (s, n, k)
      end
  end.

Definition toString_big (x : spec_float) (X : Z) : string :=
  let nd := Z.of_nat (length (digits X)) in
  match shortest x X nd 17 1 with
  | Some (s, n, k) =>
      let d := digits s in
      substring 0 1 d
        ++ (if k =? 1 then EmptyString
            else "." ++ substring 1 (Z.to_nat k - 1) d)
        ++ "e+" ++ digits (n - 1)
  | None => digits X
  end.

Definition toFixed (x : number) (fd : nat) : string :=
  match Prim2SF x with
  | S754_nan => "NaN"
  | S754_infinity s => if s then "-Infinity" else "Infinity"
  | S754_zero _ => point 0 fd
  | S754_finite s m e =>
      (if s then "-" else EmptyString)
        ++ (if (0 <=? e) && (10 ^ 21 <=? Z.pos m * 2 ^ e)
            then toString_big (S754_finite false m e) (Z.pos m * 2 ^ e)
            else point (scaled m e fd) fd)
  end.

(** *** Constants *)

Local Open Scope float_scope.

Definition R : number := 287.058.
Definition G : number := 9.80665.

(** *** Telemetry state *)

(** The [state] object. [Object.assign] copies whatever the packet holds,
    so a numeric key holds a number or [null]; [timestamp] is always
    overwritten with a Number. *)
Record State : Type := mkState {
  envelopeTempF : jsval;
  ambientTempF : jsval;
  humidityPct : jsval;
  pressurehPa : jsval;
  altitudeM : jsval;
  timestamp : number;
  ambientSource : string
}.

(** A telemetry object as [updateTelemetry] receives it: each key is
    present ([Some]) or not. *)
Record Packet : Type := mkPacket {
  p_envelopeTempF : option jsval;
  p_ambientTempF : option jsval;
  p_humidityPct : option jsval;
  p_pressurehPa : option jsval;
  p_altitudeM : option jsval;
  p_ambientSource : option string;
  p_timestamp : option jsval
}.

(** Reading a key: [undefined] when the object lacks it. *)
Definition get (k : option jsval) : jsval :=
  match k with Some v => v | None => JUndefined end.

(** One entry of [tempHist]. Its time is a [Date.now()] reading, an
    integer number of milliseconds, on which the subtraction and the
    comparison of [pushTempSample] are exact. *)
Record Sample : Type := mkSample {
  t : Z;
  ambF : number;
  envF : number
}.

(** The script's mutable variables. [VOLUME_M3] is what
    [recomputeFromDiameter()] left for the current envelope diameter;
    [initialAlt] and [flightStartMs] are [null] until set. *)
Record Engine : Type := mkEngine {
  VOLUME_M3 : number;
  state : State;
  initialAlt : jsval;
  verticalSpeed : number;
  flightStartMs : option Z;
  tempWindowMs : Z;
  tempHist : list Sample
}.

Definition f2c (f : number) : number := (f - 32) * 5 / 9.
Definition c2k (c : number) : number := c + 273.15.

(** A reading that is missing: [undefined], [null] or NaN. *)
Definition absent (v : jsval) : bool :=
  match v with
  | JNum x => is_nan x
  | _ => true
  end.

Definition densityAir (pressureHpa tempF : jsval) : number :=
  let P := or_else (Number pressureHpa) 1013.25 * 100 in
  let T := c2k (f2c (or_else (Number tempF) 20)) in
  P / (R * T).

(** Lift formatter *)
Definition fmtLift (val : number) (unit : string) (decimals : nat) : string :=
  if negb (is_finite val) then ("-- " ++ unit)%string
  else
    let s := (toFixed val decimals ++ " " ++ unit)%string in
    if val <? 0 then (s ++ " (0)")%string else s.

Record Lift : Type := mkLift { newtons : number; lbf : number }.

Definition computeLift (e : Engine) (ambF envF pressureHpa : jsval) : Lift :=
  let rhoOutVal := densityAir pressureHpa ambF in
  let rhoInVal := densityAir pressureHpa envF in
  let L := (rhoOutVal - rhoInVal) * VOLUME_M3 e * G in
  mkLift L (L / 4.4482216152605).

(** The lift fields [render()] fills: the text of [liftLbf] and of
    [liftN_note]. *)
Definition render_lift (e : Engine) : string * string :=
  let st := state e in
  let L := computeLift e (ambientTempF st) (envelopeTempF st) (pressurehPa st) in
  (fmtLift (lbf L) "lbf" 2, fmtLift (newtons L) "N" 1).

(** *** Temperature history *)

Local Close Scope float_scope.

(** [while (tempHist.length && tempHist[0].t < cutoff) tempHist.shift()] *)
Fixpoint shift_while (cutoff : Z) (hist : list Sample) : list Sample :=
  match hist with
  | [] => []
  | s :: rest => if t s <? cutoff then shift_while cutoff rest else hist
  end.

Definition pushTempSample (ts : Z) (ambF envF : number) (e : Engine) : Engine :=
  let hist := (tempHist e ++ [mkSample ts ambF envF])%list in
  let cutoff := ts - tempWindowMs e in
  mkEngine (VOLUME_M3 e) (state e) (initialAlt e) (verticalSpeed e)
    (flightStartMs e) (tempWindowMs e) (shift_while cutoff hist).

(** The [change] handler of the window selector. [mins] is what
    [parseInt(tempWindowSel.value, 10)] gives, [None] for NaN; [now] is
    [Date.now()]. *)
Definition onTempWindowChange (mins : option Z) (now : Z) (e : Engine) : Engine :=
  let mins := match mins with
              | Some m => if m =? 0 then 5 else m
              | None => 5
              end in
  let w := mins * 60 * 1000 in
  let cutoff := now - w in
  mkEngine (VOLUME_M3 e) (state e) (initialAlt e) (verticalSpeed e)
    (flightStartMs e) w (shift_while cutoff (tempHist e)).

(** Samples in the order of their times. *)
Fixpoint chronological (hist : list Sample) : bool :=
  match hist with
  | [] => true
  | s :: rest => forallb (fun s' => t s <=? t s') rest && chronological rest
  end.

(** *** Ingest and reset *)

Local Open Scope float_scope.

(** [Object.assign(state, packet||{}, { timestamp: ts })] *)
Definition assign (st : State) (packet : option Packet) (ts : number) : State :=
  match packet with
  | None => mkState (envelopeTempF st) (ambientTempF st) (humidityPct st)
              (pressurehPa st) (altitudeM st) ts (ambientSource st)
  | Some p =>
      let over {A} (new : option A) (old : A) : A :=
        match new with Some v => v | None => old end in
      mkState (over (p_envelopeTempF p) (envelopeTempF st))
        (over (p_ambientTempF p) (ambientTempF st))
        (over (p_humidityPct p) (humidityPct st))
        (over (p_pressurehPa p) (pressurehPa st))
        (over (p_altitudeM p) (altitudeM st))
        ts
        (over (p_ambientSource p) (ambientSource st))
  end.

(** [(packet && Number(packet.timestamp)) || Date.now()]: the time given
    to the snapshot; [now0] is the [Date.now()] reading, taken only when the
    packet gives no truthy timestamp. *)
Definition snapshot_time (packet : option Packet) (now0 : Z) : number :=
  match packet with
  | Some p => or_else (Number (get (p_timestamp p))) (of_Z now0)
  | None => of_Z now0
  end.

(** [updateTelemetry(packet)]; [packet] is [None] for a null or undefined
    argument. [now0] is the [Date.now()] of the first statement, [now1] the
    one passed to [pushTempSample]. *)
Definition updateTelemetry (packet : option Packet) (now0 now1 : Z)
    (e : Engine) : Engine :=
  let ts := snapshot_time packet now0 in
  let prevAlt := altitudeM (state e) in
  let prevTs := timestamp (state e) in
  let state' := assign (state e) packet ts in
  let initialAlt' :=
    if match initialAlt e with JNull => true | _ => false end
       && Number_isFinite (altitudeM state')
    then altitudeM state' else initialAlt e in
  let verticalSpeed' :=
    if Number_isFinite prevAlt && Number_isFinite (altitudeM state') then
      let dt := (ts - prevTs) / 1000 in
      if 0 <? dt then
        let v := (Number (altitudeM state') - Number prevAlt) / dt in
        0.7 * verticalSpeed e + 0.3 * v
      else verticalSpeed e
    else verticalSpeed e in
  (* Capture temps for chart *)
  pushTempSample now1
    (if Number_isFinite (ambientTempF state')
     then Number (ambientTempF state') else nan)
    (if Number_isFinite (envelopeTempF state')
     then Number (envelopeTempF state') else nan)
    (mkEngine (VOLUME_M3 e) state' initialAlt' verticalSpeed'
       (flightStartMs e) (tempWindowMs e) (tempHist e)).

(** [resetFlight()]; [now] is [Date.now()]. *)
Definition resetFlight (now : Z) (e : Engine) : Engine :=
  mkEngine (VOLUME_M3 e) (state e)
    (if Number_isFinite (altitudeM (state e))
     then altitudeM (state e) else JNull)
    0
    (Some now)
    (tempWindowMs e) (tempHist e).

(** The engine when the script has run its top level at [Date.now() = now]
    with the envelope volume [vol]: every reading NaN, no baseline, a
    zero vertical speed, a 5-minute window and no history. *)
Definition initial (vol : number) (now : Z) : Engine :=
  mkEngine vol
    (mkState (JNum nan) (JNum nan) (JNum nan) (JNum nan) (JNum nan)
       (of_Z now) EmptyString)
    JNull 0 None (5 * 60 * 1000)%Z [].

(** *** Runs of the page *)

(** What the page reacts to: a poll that delivers a packet (with the two
    clock readings of [updateTelemetry]), a change of the window selector,
    and a click on the reset button. *)
Inductive Event : Type :=
| Ingest (packet : option Packet) (now0 now1 : Z)
| WindowChange (mins : option Z) (now : Z)
| Reset (now : Z).

Definition handle (e : Engine) (ev : Event) : Engine :=
  match ev with
  | Ingest packet now0 now1 => updateTelemetry packet now0 now1 e
  | WindowChange mins now => onTempWindowChange mins now e
  | Reset now => resetFlight now e
  end.

Definition run (evs : list Event) (e : Engine) : Engine :=
  fold_left handle evs e.

(** The clock readings at which a run ingests samples into the history. *)
Fixpoint ingest_times (evs : list Event) : list Z :=
  match evs with
  | [] => []
  | Ingest _ _ now1 :: rest => now1 :: ingest_times rest
  | _ :: rest => ingest_times rest
  end.

(** A clock that does not run backwards. *)
Fixpoint nondecreasing (times : list Z) : bool :=
  match times with
  | [] => true
  | a :: rest => forallb (fun b => (a <=? b)%Z) rest && nondecreasing rest
  end.

(** *** What [render()] writes *)

Local Open Scope float_scope.

Definition M_TO_FT : number := 3.280839895013123.
Definition HPA_PER_ATM : number := 1013.25.

Definition fmtPct (x : jsval) : string :=
  if Number_isFinite x then (toFixed (Number x) 0 ++ " %")%string
  else "-- %"%string.

Definition fmtAtm (x : jsval) : string :=
  if Number_isFinite x
  then (toFixed (Number x / HPA_PER_ATM) 3 ++ " atm")%string
  else "-- atm"%string.

Definition fmtFeet (x : jsval) : string :=
  if Number_isFinite x
  then (toFixed (Number x * M_TO_FT) 1 ++ " ft")%string
  else "-- ft"%string.

Definition fmtFeetDelta (x : jsval) : string :=
  if Number_isFinite x
  then (toFixed (Number x * M_TO_FT) 1 ++ " ft")%string
  else "-- ft"%string.

(** The humidity and pressure fields: the text of [humidity] and of
    [pressure]. *)
Definition render_readings (e : Engine) : string * string :=
  (fmtPct (humidityPct (state e)), fmtAtm (pressurehPa (state e))).

(** The altitude fields: the text of [altNow], [altInit] and [altDelta]. *)
Definition render_altitude (e : Engine) : string * string * string :=
  let altM := Number (altitudeM (state e)) in
  let initM := Number (initialAlt e) in
  let dAlt :=
    if Number_isFinite (JNum altM) && Number_isFinite (JNum initM)
    then altM - initM else nan in
  (fmtFeet (JNum altM), fmtFeet (JNum initM), fmtFeetDelta (JNum dAlt)).

Local Close Scope float_scope.

(** [String(n).padStart(2,'0')] for a non-negative integer. *)
Definition fmt2 (n : Z) : string :=
  let s := digits n in
  if (length s <? 2)%nat then ("0" ++ s)%string else s.

(** [fmtDuration(ms)] for the integer number of milliseconds [render()]
    passes it (a difference of two clock readings). *)
Definition fmtDuration (ms : Z) : string :=
  if ms <? 0 then "00:00:00"
  else
    let s := ms / 1000 in
    let hh := s / 3600 in
    let mm := (s mod 3600) / 60 in
    let ss := s mod 60 in
    (fmt2 hh ++ ":" ++ fmt2 mm ++ ":" ++ fmt2 ss)%string.

(** Flight Time display: the text of [flightTime] when [Date.now()] reads
    [now]. *)
Definition render_flightTime (now : Z) (e : Engine) : string :=
  match flightStartMs e with
  | Some start => fmtDuration (now - start)
  | None => "00:00:00"
  end.

(** *** Link status and polling *)

(** [lastOkTs] and [recentRtts] (ms, last 20). *)
Record Link : Type := mkLink {
  lastOkTs : Z;
  recentRtts : list Z
}.

(** [setLinkStatus(nowMs)]: the class and the label it gives the link. *)
Definition setLinkStatus (nowMs : Z) (l : Link) : string * string :=
  let age := nowMs - lastOkTs l in
  if age <? 3000 then ("live", "Live")
  else if age <? 8000 then ("degraded", "Degraded")
  else ("offline", "Offline").

(** One [poll()]. [resp] is [None] when the fetch fails, the response is
    not ok or its body is not JSON, and [Some data] with the parsed body
    otherwise; [rtt] is the rounded round-trip time; [now0] and [now1] are
    the clock readings of [updateTelemetry], [now2] the one stored in
    [lastOkTs] and [now3] the one passed to [setLinkStatus]. The result is
    the page's variables and the link status shown. *)
Definition poll (resp : option (option Packet)) (rtt : Z)
    (now0 now1 now2 now3 : Z) (pg : Engine * Link)
    : Engine * Link * (string * string) :=
  let '(e, l) := pg in
  let '(e', l') :=
    match resp with
    | Some data =>
        let e' := updateTelemetry data now0 now1 e in
        let rtts := (recentRtts l ++ [rtt])%list in
        let rtts := if (20 <? List.length rtts)%nat then tl rtts else rtts in
        (e', mkLink now2 rtts)
    | None => (e, l)
    end in
  (e', l', setLinkStatus now3 l').

(** What the page starts with: the engine, and a link that has never
    succeeded. *)
Definition link0 : Link := mkLink 0 [].

(** A series of polls, each with its response, its round-trip time and the
    reading of the clock during it. *)
Definition polls_at (polls : list (option (option Packet) * Z * Z))
    (pg : Engine * Link) : Engine * Link :=
  fold_left
    (fun pg p => let '(resp, rtt, now) := p in
                 fst (poll resp rtt now now now now pg))
    polls pg.

(** The round-trip times of the polls that got an answer, in order. *)
Fixpoint answered (polls : list (option (option Packet) * Z * Z)) : list Z :=
  match polls with
  | [] => []
  | (Some _, rtt, _) :: rest => rtt :: answered rest
  | (None, _, _) :: rest => answered rest
  end.

(** A baseline is null or a finite number. *)
Definition baseline_ok (v : jsval) : bool :=
  match v with
  | JNull => true
  | _ => Number_isFinite v
  end.

End Dashboard.

(** * Properties *)

(** ** Order lemmas on binary floats *)

Section Compare.

Lemma SFcompare_antisym (x y : spec_float) (c : comparison) :
  SFcompare x y = Some c -> SFcompare y x = Some (CompOpp c).
Proof.
  destruct x as [sx|sx| |sx mx ex], y as [sy|sy| |sy my ey]; simpl;
    try discriminate;
    try (destruct sx); try (destruct sy);
    intros H; inversion H; clear H; subst; simpl; try reflexivity.
  - rewrite (Z.compare_antisym ex ey).
    destruct (Z.compare ex ey); simpl; try reflexivity.
    rewrite (Pos.compare_cont_antisym my mx Eq); simpl.
    now rewrite CompOpp_involutive.
  - rewrite (Z.compare_antisym ex ey).
    destruct (Z.compare ex ey); simpl; try reflexivity.
    now rewrite (Pos.compare_cont_antisym mx my Eq).
Qed.

Lemma le_not_gt (a x : F32.t) : F32.le a x = true -> F32.lt x a = false.
Proof.
  unfold F32.le, F32.lt, SFleb, SFltb.
  destruct (SFcompare a x) as [c|] eqn:E; try discriminate.
  rewrite (SFcompare_antisym _ _ _ E).
  destruct c; simpl; congruence.
Qed.

Lemma lt_not_ge (a x : F32.t) : F32.lt a x = true -> F32.le x a = false.
Proof.
  unfold F32.le, F32.lt, SFleb, SFltb.
  destruct (SFcompare a x) as [c|] eqn:E; try discriminate.
  rewrite (SFcompare_antisym _ _ _ E).
  destruct c; simpl; congruence.
Qed.

(** Nothing is both below 50 and above 2000. *)
Lemma lt50_not_gt2000 (x : F32.t) :
  F32.lt x (F32.of_Z 50) = true -> F32.gt x (F32.of_Z 2000) = false.
Proof.
  unfold F32.gt, F32.lt, SFltb.
  change (F32.of_Z 50) with (S754_finite false 13107200 (-18)).
  change (F32.of_Z 2000) with (S754_finite false 16384000 (-13)).
  destruct x as [s|s| |s m e]; cbn [SFcompare]; try reflexivity;
    destruct s; try reflexivity; try discriminate.
  destruct (Z.compare_spec e (-18)) as [He|He|He];
    destruct (Z.compare_spec (-13) e) as [Hf|Hf|Hf];
    try reflexivity; try discriminate; try lia.
Qed.

End Compare.

(** ** Firmware *)

Section FirmwareProperties.

Import Firmware.
Local Open Scope f32_scope.

(** *** Pressure unit normalizer *)

(** C7. For every raw pressure [p], [scalePressureToHectoPascal] returns
    [p / 100] when [p > 2000], [p * 100] when [p < 50] and [p] itself
    otherwise; every [p] with [50 <= p <= 2000] passes through unchanged,
    so the normalizer is idempotent there. *)
Theorem scalePressure_policy (p : float) :
  ((p >? F32.of_Z 2000) = true ->
     scalePressureToHectoPascal p = p / F32.of_Z 100) /\
  ((p <? F32.of_Z 50) = true ->
     scalePressureToHectoPascal p = p * F32.of_Z 100) /\
  ((p >? F32.of_Z 2000) = false -> (p <? F32.of_Z 50) = false ->
     scalePressureToHectoPascal p = p) /\
  ((F32.of_Z 50 <=? p) = true -> (p <=? F32.of_Z 2000) = true ->
     scalePressureToHectoPascal p = p /\
     scalePressureToHectoPascal (scalePressureToHectoPascal p)
       = scalePressureToHectoPascal p).
Proof.
  split; [|split; [|split]].
  - unfold scalePressureToHectoPascal. intros ->. reflexivity.
  - unfold scalePressureToHectoPascal. intros Hlt.
    rewrite (lt50_not_gt2000 p Hlt), Hlt. reflexivity.
  - unfold scalePressureToHectoPascal. intros -> ->. reflexivity.
  - intros Hlo Hhi. apply le_not_gt in Hlo, Hhi.
    assert (E : scalePressureToHectoPascal p = p).
    { unfold scalePressureToHectoPascal, F32.gt, F32.lt in *.
      now rewrite Hhi, Hlo. }
    now rewrite !E.
Qed.

Lemma scalePressure_policy_witness :
  scalePressureToHectoPascal (F32.of_Z 101325) = F32.dec 101325 2 /\
  scalePressureToHectoPascal (F32.of_Z 10) = F32.of_Z 1000 /\
  scalePressureToHectoPascal (F32.of_Z 1013) = F32.of_Z 1013.
Proof.
  split; [|split].
  - exact (proj1 (scalePressure_policy (F32.of_Z 101325)) eq_refl).
  - exact (proj1 (proj2 (scalePressure_policy (F32.of_Z 10))) eq_refl).
  - exact (proj1 (proj2 (proj2 (proj2
             (scalePressure_policy (F32.of_Z 1013)))) eq_refl eq_refl)).
Defined.

(** *** Overheat hysteresis *)

Lemma mlxReadTempC_finite (w : option Z) (tC : float) :
  mlxReadTempC w = Some tC -> F32.isfinite tC = true.
Proof.
  unfold mlxReadTempC. destruct w as [raw|]; try discriminate.
  set (x := (F32.of_Z raw * F32.dec 2 2 - F32.dec 27315 2)).
  destruct (_ && _) eqn:E; try discriminate.
  intros [= <-]. apply andb_prop in E as [E1 E2].
  destruct x as [s|s| |s m e]; try reflexivity; try discriminate.
  destruct s; discriminate.
Qed.

(** Each successful MLX read stores the object temperature and feeds its
    Fahrenheit value to the overheat logic. *)
Lemma loop_mlx_feeds_overheat (b : Bus) (g : Globals) (tC : float) :
  g_mlxOK g = true -> mlxReadTempC (mlx_word b) = Some tC ->
  s_envObjC (loop_mlx b g) = tC /\
  (g_overheat (loop_mlx b g), g_ledMode (loop_mlx b g))
    = overheat (c2f tC) (g_overheat g, g_ledMode g).
Proof.
  intros Hok Hrd. pose proof (mlxReadTempC_finite _ _ Hrd) as Hfin.
  unfold loop_mlx. rewrite Hok, Hrd, Hfin. simpl.
  split; [reflexivity|]. symmetry. apply surjective_pairing.
Qed.

(** C3. The overheat logic, fed an envelope temperature in degrees
    Fahrenheit, goes from normal to overheated exactly when the value is at
    least 200, from overheated to normal exactly when it is at most 195,
    and keeps its state (and the LED mode) for a value strictly between
    195 and 200; the readings 199, 200, 199.9, 195.1, 195, 194 change the
    state at 200 and at 195 only. The loop feeds it the Fahrenheit value of
    every object temperature the MLX read accepts. *)
Theorem overheat_hysteresis (envF : float) (led : Z) :
  (fst (overheat envF (false, led)) = true <->
     (envF >=? F32.of_Z 200) = true) /\
  (fst (overheat envF (true, led)) = false <->
     (envF <=? F32.of_Z 195) = true) /\
  ((F32.of_Z 195 <? envF) = true -> (envF <? F32.of_Z 200) = true ->
     forall over, overheat envF (over, led) = (over, led)) /\
  overheat_trace
    [F32.of_Z 199; F32.of_Z 200; F32.dec 1999 1; F32.dec 1951 1;
     F32.of_Z 195; F32.of_Z 194] (false, LED_SOLID)
  = [(false, LED_SOLID); (true, LED_BLINK_FAST); (true, LED_BLINK_FAST);
     (true, LED_BLINK_FAST); (false, LED_SOLID); (false, LED_SOLID)] /\
  (forall (b : Bus) (g : Globals) (tC : float),
     g_mlxOK g = true -> mlxReadTempC (mlx_word b) = Some tC ->
     (g_overheat (loop_mlx b g), g_ledMode (loop_mlx b g))
     = overheat (c2f tC) (g_overheat g, g_ledMode g)).
Proof.
  split; [|split; [|split; [|split]]].
  - unfold overheat, OVERHEAT_ON_F. cbn [negb andb].
    destruct (envF >=? F32.of_Z 200); cbn [fst]; split; congruence.
  - unfold overheat, OVERHEAT_OFF_F. cbn [negb andb].
    destruct (envF <=? F32.of_Z 195); cbn [fst]; split; congruence.
  - intros Hlo Hhi over. unfold overheat, OVERHEAT_ON_F, OVERHEAT_OFF_F.
    apply lt_not_ge in Hhi, Hlo. unfold F32.ge, F32.le in *.
    now rewrite Hhi, Hlo, !andb_false_r.
  - vm_compute. reflexivity.
  - intros b g tC Hok Hrd. now apply loop_mlx_feeds_overheat.
Qed.

Lemma overheat_hysteresis_witness :
  overheat (F32.dec 1975 1) (true, LED_BLINK_FAST) = (true, LED_BLINK_FAST)
  /\ overheat (F32.dec 1975 1) (false, LED_SOLID) = (false, LED_SOLID).
Proof.
  split;
    apply (proj1 (proj2 (proj2 (overheat_hysteresis (F32.dec 1975 1) _))));
    reflexivity.
Defined.

(** *** Ready LED *)

Local Open Scope Z_scope.

Lemma land_1_odd (z : Z) : negb (Z.land z 1 =? 0) = Z.odd z.
Proof.
  change 1 with (Z.ones 1). rewrite Z.land_ones by lia.
  rewrite Zmod_odd. now destruct (Z.odd z).
Qed.

Lemma half_period_odd (now : Z) : Z.odd (now / 50) = (50 <=? now mod 100).
Proof.
  pose proof (Z.div_mod now 100 ltac:(lia)) as Hd.
  pose proof (Z.mod_pos_bound now 100 ltac:(lia)) as Hb.
  set (q := now / 100) in *. set (r := now mod 100) in *.
  destruct (Z.leb_spec 50 r).
  - replace (now / 50) with (1 + 2 * q).
    + now rewrite Z.odd_add_mul_2.
    + apply (Z.div_unique now 50 (1 + 2 * q) (r - 50)); lia.
  - replace (now / 50) with (0 + 2 * q).
    + now rewrite Z.odd_add_mul_2.
    + apply (Z.div_unique now 50 (0 + 2 * q) r); lia.
Qed.

Lemma uint32_small (z : Z) : 0 <= z < 2 ^ 32 -> uint32 z = z.
Proof. intros H. unfold uint32. now apply Z.mod_small. Qed.

Lemma uint32_wrapped (z : Z) :
  2 ^ 32 <= z < 2 * 2 ^ 32 -> uint32 z = z - 2 ^ 32.
Proof.
  intros H. unfold uint32. symmetry.
  apply (Z.mod_unique z (2 ^ 32) 1 (z - 2 ^ 32)); lia.
Qed.

(** C2, what the code does. On the 32-bit clock [millis()] the fast blink
    is a square wave with a period of 100 ms (10 Hz, not the 4 Hz of the
    comment beside it): at every reading [now] of the clock the LED is low
    in the first 50 ms of each 100 ms and high in the next 50 ms; 100 ms
    later the level is the same as long as the clock has not wrapped; where
    it wraps past 2^32 - 1 in between, the wave jumps by 4 ms (2^32 is 96
    modulo 100). *)
Theorem fastblink_waveform (now : Z) :
  0 <= now < 2 ^ 32 ->
  serviceReadyLed LED_BLINK_FAST now = (50 <=? now mod 100) /\
  (now + 100 < 2 ^ 32 ->
     serviceReadyLed LED_BLINK_FAST (uint32 (now + 100))
     = serviceReadyLed LED_BLINK_FAST now) /\
  (2 ^ 32 <= now + 100 ->
     serviceReadyLed LED_BLINK_FAST (uint32 (now + 100))
     = (50 <=? (now + 4) mod 100)).
Proof.
  intros Hnow.
  assert (H : forall n, serviceReadyLed LED_BLINK_FAST n = (50 <=? n mod 100)).
  { intros n. unfold serviceReadyLed. simpl.
    change (100 / 2) with 50. now rewrite land_1_odd, half_period_odd. }
  split; [apply H|]. split; intros Hw; rewrite !H.
  - rewrite uint32_small by lia.
    replace (now + 100) with (now + 1 * 100) by lia.
    now rewrite Z.mod_add by lia.
  - rewrite uint32_wrapped by lia.
    replace (now + 100 - 2 ^ 32) with (now + 4 + (-42949672) * 100) by lia.
    now rewrite Z.mod_add by lia.
Qed.

Lemma fastblink_waveform_witness :
  serviceReadyLed LED_BLINK_FAST 4294967246 = false /\
  serviceReadyLed LED_BLINK_FAST (uint32 (4294967246 + 100)) = true.
Proof.
  destruct (fastblink_waveform 4294967246 ltac:(lia)) as (H0 & _ & H2).
  split; [exact H0|exact (H2 ltac:(lia))].
Defined.

(** C2, as the specification and the comment in the code have it, fails:
    a 4 Hz wave rises four times a second and repeats every 250 ms, while
    the fast blink rises ten times in the first second of the clock, and
    is low at 0 ms but high at 250 ms. *)
Lemma fastblink_not_4Hz :
  rising_edges LED_BLINK_FAST 0 1000 = 10%nat /\
  serviceReadyLed LED_BLINK_FAST 0 = false /\
  serviceReadyLed LED_BLINK_FAST 250 = true.
Proof. vm_compute. repeat split. Qed.

(** *** DHT poll *)

Local Open Scope f32_scope.

(** What [readDhtOnce] accepts. *)
Lemma readDhtOnce_ok (tC rh : float) :
  fst (fst (readDhtOnce (tC, rh))) = true <->
  F32.isnan tC = false /\ F32.isnan rh = false /\
  (rh >=? F32.of_Z 0) = true /\ (rh <=? F32.of_Z 100) = true.
Proof.
  unfold readDhtOnce. simpl.
  rewrite !andb_true_iff, !negb_true_iff. tauto.
Qed.

Lemma readDhtOnce_values (r : float * float) :
  (snd (fst (readDhtOnce r)), snd (readDhtOnce r)) = r.
Proof. now destruct r. Qed.

(** The retry loop stops at the first accepted attempt and yields its
    readings; it yields nothing when every attempt is rejected. *)
Lemma dht_attempts_spec (read : nat -> float * float) (n i : nat) :
  match dht_attempts n i read with
  | Some r =>
      exists k, (k < n)%nat /\ r = read (i + k)%nat /\
        fst (fst (readDhtOnce (read (i + k)%nat))) = true /\
        forall j, (j < k)%nat ->
          fst (fst (readDhtOnce (read (i + j)%nat))) = false
  | None =>
      forall j, (j < n)%nat ->
        fst (fst (readDhtOnce (read (i + j)%nat))) = false
  end.
Proof.
  revert i. induction n as [|n IH]; intros i.
  - intros j Hj. lia.
  - change (dht_attempts (S n) i read)
      with (let '(ok, t, h) := readDhtOnce (read i) in
            if ok then Some (t, h) else dht_attempts n (S i) read).
    destruct (readDhtOnce (read i)) as [[ok t0] h0] eqn:E.
    destruct ok.
    + exists 0%nat. rewrite Nat.add_0_r, E. simpl.
      repeat split; try lia.
      pose proof (readDhtOnce_values (read i)) as Hv.
      rewrite E in Hv. simpl in Hv. now rewrite Hv.
    + specialize (IH (S i)).
      destruct (dht_attempts n (S i) read) as [r|].
      * destruct IH as (k & Hk & Hr & Hok & Hbefore).
        exists (S k). rewrite Nat.add_succ_r. rewrite Nat.add_succ_l in *.
        repeat split; try lia; try assumption.
        intros [|j] Hj.
        -- now rewrite Nat.add_0_r, E.
        -- rewrite Nat.add_succ_r, <- Nat.add_succ_l. apply Hbefore. lia.
      * intros [|j] Hj.
        -- now rewrite Nat.add_0_r, E.
        -- rewrite Nat.add_succ_r, <- Nat.add_succ_l. apply IH. lia.
Qed.

Lemma readDhtOnce_accepts (r : float * float) :
  fst (fst (readDhtOnce r)) = true <->
  F32.isnan (fst r) = false /\ F32.isnan (snd r) = false /\
  (snd r >=? F32.of_Z 0) = true /\ (snd r <=? F32.of_Z 100) = true.
Proof. destruct r as [tC rh]. apply readDhtOnce_ok. Qed.

(** C9. A DHT poll changes the stored ambient temperature and the stored
    humidity together or not at all, and it overwrites them exactly when
    one of its (at most three) attempts is valid, that is, reads a
    temperature that is not NaN and a humidity that is not NaN and lies in
    [0, 100]: in a poll that is due, the first valid attempt is the pair
    stored; in a poll whose three attempts are all invalid (a humidity out
    of range included), and in a pass in which the poll is not due, both
    stored values stay as they were; so what is stored after a poll is
    the old pair or the pair of one valid attempt, never the temperature
    of one with the humidity of another. *)
Theorem dht_poll_atomic (b : Bus) (g : Globals) :
  let g' := loop_dht b g in
  let due := (DHT_PERIOD_MS <=? uint32 (millis b - g_lastDhtMs g))%Z in
  let valid := fun r : float * float =>
    F32.isnan (fst r) = false /\ F32.isnan (snd r) = false /\
    (snd r >=? F32.of_Z 0) = true /\ (snd r <=? F32.of_Z 100) = true in
  (forall k, (k < 3)%nat -> due = true -> valid (dht_read b k) ->
     (forall j, (j < k)%nat -> ~ valid (dht_read b j)) ->
     (s_dhtTempC g', s_dhtHum g') = dht_read b k) /\
  (due = false \/ (forall j, (j < 3)%nat -> ~ valid (dht_read b j)) ->
   s_dhtTempC g' = s_dhtTempC g /\ s_dhtHum g' = s_dhtHum g) /\
  ((s_dhtTempC g' = s_dhtTempC g /\ s_dhtHum g' = s_dhtHum g) \/
   exists k, (k < 3)%nat /\ due = true /\ valid (dht_read b k) /\
     (s_dhtTempC g', s_dhtHum g') = dht_read b k).
Proof.
  cbv zeta. unfold loop_dht.
  destruct (DHT_PERIOD_MS <=? uint32 (millis b - g_lastDhtMs g))%Z eqn:Due.
  - pose proof (dht_attempts_spec (dht_read b) 3 0) as Hspec.
    destruct (dht_attempts 3 0 (dht_read b)) as [[t0 h0]|];
      cbn [s_dhtTempC s_dhtHum Nat.add] in *.
    + destruct Hspec as (k & Hk & Hr & Hok & Hbefore).
      apply readDhtOnce_accepts in Hok.
      split; [|split].
      * intros k' Hk' _ Hv Hbefore'.
        destruct (Nat.lt_total k' k) as [Hlt|[->|Hgt]].
        -- apply readDhtOnce_accepts in Hv.
           rewrite (Hbefore k' Hlt) in Hv. discriminate Hv.
        -- exact Hr.
        -- destruct (Hbefore' k Hgt Hok).
      * intros [H|H]; [discriminate H|]. destruct (H k Hk Hok).
      * right. exists k. repeat split; try assumption; apply Hok.
    + split; [|split].
      * intros k Hk _ Hv _. apply readDhtOnce_accepts in Hv.
        rewrite (Hspec k Hk) in Hv. discriminate Hv.
      * intros _. now split.
      * left. now split.
  - split; [|split].
    + intros k _ H. discriminate H.
    + intros _. now split.
    + left. now split.
Qed.

Lemma dht_poll_atomic_witness :
  let b := mkBus 5000 5000 F32.NAN F32.NAN F32.NAN None
             (fun i => match i with
                       | O => (F32.of_Z 25, F32.of_Z 140)
                       | _ => (F32.of_Z 25, F32.of_Z 40)
                       end) in
  let g := mkGlobals F32.NAN F32.NAN F32.NAN (F32.of_Z 21) (F32.of_Z 55)
             F32.NAN 5000 3000 false LED_SOLID false false in
  (s_dhtTempC (loop_dht b g), s_dhtHum (loop_dht b g))
  = (F32.of_Z 25, F32.of_Z 40).
Proof.
  intros b g.
  refine (proj1 (dht_poll_atomic b g) 1%nat _ eq_refl _ _).
  - lia.
  - repeat split.
  - intros j Hj (_ & _ & _ & H). assert (j = 0%nat) as -> by lia.
    discriminate H.
Defined.

(** *** JSON builder *)

Local Open Scope string_scope.

Lemma append_assoc (a b c : string) : (a ++ b) ++ c = a ++ (b ++ c).
Proof. induction a as [|ch a IH]; simpl; [reflexivity|now rewrite IH]. Qed.

Section Json.

Variable String_float : float -> nat -> string.

(** The seven values of the record [buildTelemetryJson] writes. *)
Lemma buildTelemetryJson_record (g : Globals) (ms : Z) :
  buildTelemetryJson String_float g ms
  = wire_record
      (if F32.isnan (s_envObjC g) then "null"
       else String_float (c2f (s_envObjC g)) 1)
      (if F32.isnan (s_dhtTempC g)
       then (if F32.isnan (s_mplTempC g) then "null"
             else String_float (c2f (s_mplTempC g)) 1)
       else String_float (c2f (s_dhtTempC g)) 1)
      (if F32.isnan (s_dhtHum g) then "null"
       else String_float (s_dhtHum g) 0)
      (if F32.isnan (s_pres_hPa g) then "null"
       else String_float (s_pres_hPa g) 1)
      (if F32.isnan (s_alt_m g) then "null"
       else String_float (s_alt_m g) 1)
      (if F32.isnan (s_dhtTempC g) then "MPL" else "DHT")
      (String_uint32 ms).
Proof.
  unfold buildTelemetryJson, wire_record, member. cbv zeta.
  destruct (F32.isnan (s_dhtTempC g)) eqn:E; simpl negb; cbv iota;
    rewrite ?E; cbv iota; rewrite !append_assoc; reflexivity.
Qed.

(** C6. In the record, a NaN measurement is written as the literal
    [null] under its key, and a measurement that is not NaN is written by
    [String(value, decimals)] with its fixed number of decimals: 1 for
    the envelope and ambient temperatures (in Fahrenheit), 0 for the
    humidity, 1 for the pressure and 1 for the altitude. *)
Theorem json_null_and_precision (g : Globals) (ms : Z) :
  let ambC := if F32.isnan (s_dhtTempC g)
              then s_mplTempC g else s_dhtTempC g in
  let text (x shown : float) (decimals : nat) :=
    if F32.isnan x then "null" else String_float shown decimals in
  exists src,
    buildTelemetryJson String_float g ms
    = wire_record
        (text (s_envObjC g) (c2f (s_envObjC g)) 1%nat)
        (text ambC (c2f ambC) 1%nat)
        (text (s_dhtHum g) (s_dhtHum g) 0%nat)
        (text (s_pres_hPa g) (s_pres_hPa g) 1%nat)
        (text (s_alt_m g) (s_alt_m g) 1%nat)
        src
        (String_uint32 ms).
Proof.
  cbv zeta. exists (if F32.isnan (s_dhtTempC g) then "MPL" else "DHT").
  rewrite buildTelemetryJson_record.
  destruct (F32.isnan (s_dhtTempC g)) eqn:E; [reflexivity|].
  now rewrite E.
Qed.

(** The DHT block leaves an accepted attempt's temperature, which is not
    NaN, in [s_dhtTempC]. *)
Lemma loop_stores_dht (b : Bus) (g : Globals) (t h : float) :
  (TELEMETRY_PERIOD_MS <=? uint32 (millis b - g_lastSampleMs g))%Z = true ->
  (DHT_PERIOD_MS <=? uint32 (millis b - g_lastDhtMs g))%Z = true ->
  dht_attempts 3 0 (dht_read b) = Some (t, h) ->
  s_dhtTempC (snd (loop b g)) = t /\ F32.isnan t = false.
Proof.
  intros Htel Hdue Hat. unfold loop. rewrite Htel. simpl snd.
  match goal with |- context [loop_mlx b (loop_mpl b ?g0)] =>
    assert (Hlast : g_lastDhtMs (loop_mlx b (loop_mpl b g0)) = g_lastDhtMs g)
  end.
  { unfold loop_mlx, loop_mpl. simpl.
    destruct (mplOk g), (g_mlxOK g); simpl;
      destruct (mlxReadTempC (mlx_word b)); reflexivity. }
  unfold loop_dht. rewrite Hlast, Hdue, Hat. simpl. split; [reflexivity|].
  pose proof (dht_attempts_spec (dht_read b) 3 0) as Hspec.
  rewrite Hat in Hspec. destruct Hspec as (k & _ & Hr & Hok & _).
  rewrite <- Hr in Hok. now apply readDhtOnce_ok in Hok.
Qed.

(** C5. Every snapshot takes the ambient temperature from the DHT, with
    the tag [DHT], when the stored DHT temperature is not NaN, and from
    the MPL, with the tag [MPL], when it is; the choice is made at each
    build, so after a pass of the loop in which a DHT attempt is
    accepted the next snapshot carries that reading and the tag [DHT]. *)
Theorem ambient_source_policy (g : Globals) (ms : Z) :
  (exists env hum pres alt,
     buildTelemetryJson String_float g ms
     = wire_record env
         (if F32.isnan (s_dhtTempC g)
          then (if F32.isnan (s_mplTempC g) then "null"
                else String_float (c2f (s_mplTempC g)) 1)
          else String_float (c2f (s_dhtTempC g)) 1)
         hum pres alt
         (if F32.isnan (s_dhtTempC g) then "MPL" else "DHT")
         (String_uint32 ms)) /\
  (forall (b : Bus) (t h : float),
     (TELEMETRY_PERIOD_MS <=? uint32 (millis b - g_lastSampleMs g))%Z = true ->
     (DHT_PERIOD_MS <=? uint32 (millis b - g_lastDhtMs g))%Z = true ->
     dht_attempts 3 0 (dht_read b) = Some (t, h) ->
     exists env hum pres alt,
       buildTelemetryJson String_float (snd (loop b g)) ms
       = wire_record env (String_float (c2f t) 1) hum pres alt "DHT"
           (String_uint32 ms)).
Proof.
  split.
  - do 4 eexists. apply buildTelemetryJson_record.
  - intros b t h Htel Hdue Hat.
    destruct (loop_stores_dht b g t h Htel Hdue Hat) as [Hs Hn].
    do 4 eexists. rewrite buildTelemetryJson_record, Hs, Hn. reflexivity.
Qed.

End Json.

Lemma ambient_source_policy_witness :
  let render (x : float) (decimals : nat) :=
    Dashboard.toFixed (SF2Prim x) decimals in
  let g := mkGlobals (F32.of_Z 1500) (F32.of_Z 20) (F32.dec 10132 1)
             F32.NAN F32.NAN F32.NAN 4000 3000 false LED_SOLID true false in
  let b := mkBus 5000 5000 (F32.of_Z 1500) (F32.of_Z 20) (F32.of_Z 101320)
             None (fun i => match i with
                            | O => (F32.NAN, F32.NAN)
                            | _ => (F32.of_Z 25, F32.of_Z 40)
                            end) in
  (exists env hum pres alt,
     buildTelemetryJson render g 5000
     = wire_record env "68.0" hum pres alt "MPL" "5000") /\
  (exists env hum pres alt,
     buildTelemetryJson render (snd (loop b g)) 6000
     = wire_record env "77.0" hum pres alt "DHT" "6000").
Proof.
  intros render g b. split.
  - exact (proj1 (ambient_source_policy render g 5000)).
  - exact (proj2 (ambient_source_policy render g 6000)
             b (F32.of_Z 25) (F32.of_Z 40) eq_refl eq_refl eq_refl).
Defined.

End FirmwareProperties.

(** ** Dashboard *)

Section DashboardProperties.

Import Dashboard.
Local Open Scope float_scope.

(** *** Lift *)

Lemma or_else_absent (v : jsval) (d : number) :
  absent v = true -> or_else (Number v) d = d.
Proof.
  unfold or_else, truthy. destruct v as [| |x]; simpl; intros H.
  - reflexivity.
  - reflexivity.
  - now rewrite H.
Qed.

Lemma densityAir_no_pressure (p tempF : jsval) :
  absent p = true -> densityAir p tempF = densityAir (JNum 1013.25) tempF.
Proof.
  intros H. unfold densityAir. rewrite (or_else_absent p _ H). reflexivity.
Qed.

Lemma densityAir_no_temperature (p tempF : jsval) :
  absent tempF = true -> densityAir p tempF = densityAir p (JNum 20).
Proof.
  intros H. unfold densityAir. rewrite (or_else_absent tempF _ H). reflexivity.
Qed.

(** C1, as the code has it. An absent input of the lift computation
    (undefined, null or NaN) does not blank the lift: an absent pressure is
    replaced by 1013.25 hPa and an absent ambient or envelope temperature
    by 20, and the lift is computed from the replaced values; [fmtLift]
    writes the dashes only for a lift that is not a finite number. *)
Theorem lift_uses_defaults (e : Engine) (amb env pres : jsval) :
  (absent pres = true ->
     computeLift e amb env pres = computeLift e amb env (JNum 1013.25)) /\
  (absent amb = true ->
     computeLift e amb env pres = computeLift e (JNum 20) env pres) /\
  (absent env = true ->
     computeLift e amb env pres = computeLift e amb (JNum 20) pres) /\
  (forall (val : number) (unit : string) (decimals : nat),
     (is_finite val = false -> fmtLift val unit decimals = ("-- " ++ unit)%string) /\
     (is_finite val = true ->
        fmtLift val unit decimals
        = if val <? 0
          then (toFixed val decimals ++ " " ++ unit ++ " (0)")%string
          else (toFixed val decimals ++ " " ++ unit)%string)).
Proof.
  unfold computeLift. repeat split.
  - intros H. now rewrite !(densityAir_no_pressure pres _ H).
  - intros H. now rewrite (densityAir_no_temperature pres amb H).
  - intros H. now rewrite (densityAir_no_temperature pres env H).
  - intros H. unfold fmtLift. now rewrite H.
  - intros H. unfold fmtLift. rewrite H. cbn [negb].
    destruct (val <? 0); [|reflexivity].
    now rewrite !append_assoc.
Qed.

Lemma lift_uses_defaults_witness :
  computeLift (initial 118.6 1700000000000) JNull (JNum 200) JNull
  = computeLift (initial 118.6 1700000000000) (JNum 20) (JNum 200)
      (JNum 1013.25).
Proof.
  pose proof (lift_uses_defaults (initial 118.6 1700000000000)
                JNull (JNum 200) JNull) as (Hp & _).
  pose proof (lift_uses_defaults (initial 118.6 1700000000000)
                JNull (JNum 200) (JNum 1013.25)) as (_ & Ha & _).
  rewrite (Hp eq_refl). exact (Ha eq_refl).
Defined.

(** C1, as the specification has it, fails: with every reading absent, as
    when the page has just loaded, and with the ambient temperature and
    the pressure absent next to an envelope at 200 degrees, the lift fields
    show computed numbers, not dashes. *)
Lemma lift_shown_without_inputs :
  render_lift (initial 118.6 1700000000000) = ("0.00 lbf", "0.0 N")%string /\
  render_lift
    (mkEngine 118.6
       (mkState (JNum 200) JNull JNull JNull JNull 5000 "MPL")
       JNull 0 None 300000 [])
  = ("94.50 lbf", "420.4 N")%string.
Proof. vm_compute. split; reflexivity. Qed.

(** *** Vertical speed *)

Lemma assign_timestamp (st : State) (packet : option Packet) (ts : number) :
  timestamp (assign st packet ts) = ts.
Proof. now destruct packet. Qed.

Lemma assign_altitude (st : State) (p : Packet) (ts : number) (v : jsval) :
  p_altitudeM p = Some v -> altitudeM (assign st (Some p) ts) = v.
Proof. intros H. simpl. now rewrite H. Qed.

Lemma updateTelemetry_state (packet : option Packet) (now0 now1 : Z)
    (e : Engine) :
  state (updateTelemetry packet now0 now1 e)
  = assign (state e) packet (snapshot_time packet now0).
Proof. reflexivity. Qed.

(** The update rule of the estimator, in terms of the state before and
    after the ingest. *)
Lemma verticalSpeed_rule (packet : option Packet) (now0 now1 : Z)
    (e : Engine) :
  let e' := updateTelemetry packet now0 now1 e in
  let prevAlt := altitudeM (state e) in
  let alt := altitudeM (state e') in
  let dt := (timestamp (state e') - timestamp (state e)) / 1000 in
  verticalSpeed e'
  = if Number_isFinite prevAlt && Number_isFinite alt && (0 <? dt)
    then 0.7 * verticalSpeed e + 0.3 * ((Number alt - Number prevAlt) / dt)
    else verticalSpeed e.
Proof.
  cbv zeta. rewrite updateTelemetry_state, assign_timestamp.
  unfold updateTelemetry, pushTempSample. cbn [verticalSpeed].
  destruct (Number_isFinite (altitudeM (state e)) &&
            Number_isFinite
              (altitudeM (assign (state e) packet (snapshot_time packet now0))));
    reflexivity.
Qed.

(** C4, what the code does. The smoothed vertical speed becomes
    [0.7 * v + 0.3 * ((alt_now - alt_prev) / dt)] when the altitude of
    the state before the ingest and the altitude of the state after it are
    both finite numbers and [dt > 0], and keeps its value otherwise. In
    terms of the packet: one whose altitude is there but is not a finite
    number (null, as the firmware writes a missing altitude) leaves the
    smoothed speed unchanged; one that has no altitude key, and a null
    packet, leave the altitude of the state as it was, so the guards see
    the previous altitude twice and the rule is applied to an altitude
    difference of zero. From the zero-initialized estimator, a
    snapshot at 0 m followed one second later by a snapshot at 10 m gives
    3.0 m/s when the timestamps of both snapshots are truthy (neither 0
    nor NaN). A snapshot without a timestamp, or with the timestamp null
    or 0, is given the reading of the page's clock as its time. *)
Theorem vertical_speed_smoothing :
  (forall (packet : option Packet) (now0 now1 : Z) (e : Engine),
     let e' := updateTelemetry packet now0 now1 e in
     let prevAlt := altitudeM (state e) in
     let alt := altitudeM (state e') in
     let dt := (timestamp (state e') - timestamp (state e)) / 1000 in
     (Number_isFinite prevAlt = true -> Number_isFinite alt = true ->
      (0 <? dt) = true ->
      verticalSpeed e'
      = 0.7 * verticalSpeed e + 0.3 * ((Number alt - Number prevAlt) / dt))
     /\
     (Number_isFinite prevAlt = false \/ Number_isFinite alt = false \/
      (0 <? dt) = false ->
      verticalSpeed e' = verticalSpeed e)) /\
  (forall (p : Packet) (now0 now1 : Z) (e : Engine) (v : jsval),
     p_altitudeM p = Some v -> Number_isFinite v = false ->
     verticalSpeed (updateTelemetry (Some p) now0 now1 e) = verticalSpeed e) /\
  (forall (packet : option Packet) (now0 now1 : Z) (e : Engine),
     packet = None \/ (exists p, packet = Some p /\ p_altitudeM p = None) ->
     let e' := updateTelemetry packet now0 now1 e in
     let prevAlt := altitudeM (state e) in
     let dt := (timestamp (state e') - timestamp (state e)) / 1000 in
     altitudeM (state e') = prevAlt /\
     (Number_isFinite prevAlt = true -> (0 <? dt) = true ->
      verticalSpeed e'
      = 0.7 * verticalSpeed e
        + 0.3 * ((Number prevAlt - Number prevAlt) / dt))) /\
  (forall (vol : number) (load : Z) (p0 p1 : Packet) (n0 n1 n2 n3 : Z)
          (ts0 ts1 : number),
     p_altitudeM p0 = Some (JNum 0) -> p_timestamp p0 = Some (JNum ts0) ->
     p_altitudeM p1 = Some (JNum 10) -> p_timestamp p1 = Some (JNum ts1) ->
     truthy ts0 = true -> truthy ts1 = true ->
     (ts1 - ts0) / 1000 = 1 ->
     verticalSpeed
       (updateTelemetry (Some p1) n2 n3
          (updateTelemetry (Some p0) n0 n1 (initial vol load)))
     = 3) /\
  (forall (packet : option Packet) (now0 now1 : Z) (e : Engine),
     packet = None \/
     (exists p, packet = Some p /\
        (p_timestamp p = None \/ p_timestamp p = Some JNull \/
         p_timestamp p = Some (JNum 0))) ->
     timestamp (state (updateTelemetry packet now0 now1 e)) = of_Z now0).
Proof.
  split; [|split; [|split; [|split]]].
  - intros packet now0 now1 e. cbv zeta.
    pose proof (verticalSpeed_rule packet now0 now1 e) as R. cbv zeta in R.
    split.
    + intros H1 H2 H3. now rewrite R, H1, H2, H3.
    + intros H. rewrite R.
      destruct H as [H|[H|H]]; rewrite H;
        now rewrite ?andb_false_r.
  - intros p now0 now1 e v Hp Hv.
    rewrite verticalSpeed_rule, updateTelemetry_state.
    rewrite (assign_altitude _ _ _ _ Hp), Hv.
    now rewrite andb_false_r.
  - intros packet now0 now1 e H. cbv zeta.
    assert (Ha : altitudeM (state (updateTelemetry packet now0 now1 e))
                 = altitudeM (state e)).
    { destruct H as [->|(p & -> & Hp)];
        rewrite updateTelemetry_state; [reflexivity|].
      simpl. now rewrite Hp. }
    split; [exact Ha|]. intros H1 H2.
    pose proof (verticalSpeed_rule packet now0 now1 e) as R. cbv zeta in R.
    now rewrite R, Ha, H1, H2.
  - intros vol load p0 p1 n0 n1 n2 n3 ts0 ts1 Ha0 Ht0 Ha1 Ht1 Htr0 Htr1 Hdt.
    set (e1 := updateTelemetry (Some p0) n0 n1 (initial vol load)).
    assert (Hts0 : snapshot_time (Some p0) n0 = ts0).
    { unfold snapshot_time, or_else. rewrite Ht0. simpl. now rewrite Htr0. }
    assert (Hts1 : snapshot_time (Some p1) n2 = ts1).
    { unfold snapshot_time, or_else. rewrite Ht1. simpl. now rewrite Htr1. }
    assert (Hv1 : verticalSpeed e1 = 0).
    { unfold e1. rewrite verticalSpeed_rule. reflexivity. }
    assert (Hs1 : altitudeM (state e1) = JNum 0 /\ timestamp (state e1) = ts0).
    { unfold e1. rewrite updateTelemetry_state, assign_timestamp, Hts0.
      split; [now apply assign_altitude|reflexivity]. }
    destruct Hs1 as [Halt1 Htime1].
    rewrite verticalSpeed_rule.
    rewrite updateTelemetry_state, assign_timestamp, Hts1.
    rewrite (assign_altitude _ _ _ _ Ha1), Halt1, Htime1, Hdt, Hv1.
    reflexivity.
  - intros packet now0 now1 e H.
    rewrite updateTelemetry_state, assign_timestamp.
    destruct H as [->|(p & -> & [H|[H|H]])]; [reflexivity| | |];
      unfold snapshot_time; now rewrite H.
Qed.

Lemma vertical_speed_smoothing_witness :
  verticalSpeed
    (updateTelemetry
       (Some (mkPacket (Some JNull) (Some (JNum 68)) (Some (JNum 40))
                (Some (JNum 1013.2)) (Some (JNum 10)) (Some "DHT"%string)
                (Some (JNum 2000))))
       1700000001000 1700000001001
       (updateTelemetry
          (Some (mkPacket (Some JNull) (Some (JNum 68)) (Some (JNum 40))
                   (Some (JNum 1013.2)) (Some (JNum 0)) (Some "DHT"%string)
                   (Some (JNum 1000))))
          1700000000000 1700000000001
          (initial 118.6 1699999999000)))
  = 3.
Proof.
  apply (proj1 (proj2 (proj2 (proj2 vertical_speed_smoothing))))
    with (ts0 := 1000) (ts1 := 2000);
    reflexivity.
Defined.

(** C4, the example of the specification, with its times as the
    snapshots' own timestamps: the timestamp 0 of the first snapshot is
    there, but it is falsy and [||] takes it for a missing one, so the
    snapshot is stamped with the page's clock; the second snapshot,
    stamped 1000 ms, then lies in the past, its [dt] is negative, and the
    smoothed vertical speed stays 0 where the specification expects 3.0.
    The altitude 0 of the same snapshot is accepted, being tested with
    [Number.isFinite]. *)
Lemma zero_timestamp_example_stays_zero :
  verticalSpeed
    (updateTelemetry
       (Some (mkPacket (Some JNull) (Some JNull) (Some JNull) (Some JNull)
                (Some (JNum 10)) (Some "MPL"%string) (Some (JNum 1000))))
       1700000001000 1700000001001
       (updateTelemetry
          (Some (mkPacket (Some JNull) (Some JNull) (Some JNull) (Some JNull)
                   (Some (JNum 0)) (Some "MPL"%string) (Some (JNum 0))))
          1700000000000 1700000000001
          (initial 118.6 1699999999000)))
  = 0 /\
  timestamp
    (state
       (updateTelemetry
          (Some (mkPacket (Some JNull) (Some JNull) (Some JNull) (Some JNull)
                   (Some (JNum 0)) (Some "MPL"%string) (Some (JNum 0))))
          1700000000000 1700000000001
          (initial 118.6 1699999999000)))
  = 1700000000000.
Proof. vm_compute. split; reflexivity. Qed.

(** *** Reset *)

(** C10. The reset command sets the smoothed vertical speed to 0 and the
    flight timer's start to the current time, and sets the baseline to the
    current altitude when it is a finite number and to null otherwise;
    a snapshot without an altitude leaves the smoothed vertical speed as
    it was. *)
Theorem reset_zeroes_estimator (now : Z) (e : Engine) :
  verticalSpeed (resetFlight now e) = 0 /\
  flightStartMs (resetFlight now e) = Some now /\
  initialAlt (resetFlight now e)
  = (if Number_isFinite (altitudeM (state e))
     then altitudeM (state e) else JNull) /\
  (forall (p : Packet) (now0 now1 : Z),
     p_altitudeM p = Some JNull ->
     verticalSpeed (updateTelemetry (Some p) now0 now1 e) = verticalSpeed e).
Proof.
  repeat split.
  intros p now0 now1 Hnull. rewrite verticalSpeed_rule.
  rewrite updateTelemetry_state, (assign_altitude _ _ _ _ Hnull).
  cbn [Number_isFinite]. now rewrite andb_false_r.
Qed.

(** *** Temperature history *)

Local Open Scope Z_scope.

Lemma filter_all (cutoff : Z) (hist : list Sample) :
  forallb (fun s => cutoff <=? t s) hist = true ->
  filter (fun s => cutoff <=? t s) hist = hist.
Proof.
  induction hist as [|s rest IH]; simpl; [reflexivity|].
  intros H. apply andb_prop in H as [Hs Hrest].
  now rewrite Hs, IH.
Qed.

Lemma forallb_later (a cutoff : Z) (hist : list Sample) :
  cutoff <= a ->
  forallb (fun s => a <=? t s) hist = true ->
  forallb (fun s => cutoff <=? t s) hist = true.
Proof.
  intros Hle H. rewrite forallb_forall in *.
  intros s Hin. specialize (H s Hin). lia.
Qed.

(** On a chronological history, shifting the front while it is older than
    the cutoff keeps exactly the samples that are not older. *)
Lemma shift_while_filter (cutoff : Z) (hist : list Sample) :
  chronological hist = true ->
  shift_while cutoff hist = filter (fun s => cutoff <=? t s) hist.
Proof.
  induction hist as [|s rest IH]; [reflexivity|].
  intros H. apply andb_prop in H as [Hs Hrest].
  cbn [shift_while filter]. rewrite (Z.leb_antisym (t s) cutoff).
  destruct (t s <? cutoff) eqn:E; cbn [negb].
  - now apply IH.
  - f_equal. symmetry. apply filter_all.
    apply (forallb_later (t s)); [lia|assumption].
Qed.

Lemma chronological_filter (f : Sample -> bool) (hist : list Sample) :
  chronological hist = true -> chronological (filter f hist) = true.
Proof.
  induction hist as [|s rest IH]; [reflexivity|].
  intros H. apply andb_prop in H as [Hs Hrest]. cbn [filter].
  destruct (f s); [|now apply IH].
  cbn [chronological]. rewrite (IH Hrest), andb_true_r.
  rewrite forallb_forall in *. intros s' Hin.
  apply Hs. now apply filter_In in Hin.
Qed.

(** The window selector keeps the history chronological. *)
Lemma onTempWindowChange_chronological (mins : option Z) (now : Z)
    (e : Engine) :
  chronological (tempHist e) = true ->
  chronological (tempHist (onTempWindowChange mins now e)) = true.
Proof.
  intros H. unfold onTempWindowChange. cbn [tempHist].
  rewrite (shift_while_filter _ _ H). now apply chronological_filter.
Qed.

Lemma chronological_snoc (hist : list Sample) (s : Sample) :
  chronological hist = true ->
  (forall s', In s' hist -> t s' <= t s) ->
  chronological (hist ++ [s]) = true.
Proof.
  induction hist as [|a rest IH]; [reflexivity|].
  intros H Hle. apply andb_prop in H as [Ha Hrest].
  cbn [app chronological]. rewrite IH; auto with datatypes.
  rewrite andb_true_r, forallb_app, Ha. cbn [forallb andb].
  rewrite andb_true_r. apply Z.leb_le, Hle. now left.
Qed.

(** An ingest pushes one sample, stamped with its second clock reading, and
    shifts the front of the history. *)
Lemma updateTelemetry_history (packet : option Packet) (now0 now1 : Z)
    (e : Engine) :
  exists amb env,
    tempHist (updateTelemetry packet now0 now1 e)
    = shift_while (now1 - tempWindowMs e)
        (tempHist e ++ [mkSample now1 amb env]).
Proof. unfold updateTelemetry, pushTempSample. cbn. eauto. Qed.

(** While the clock does not run backwards the history stays in the order
    of its times, and no sample is later than the clock. *)
Lemma run_chronological (evs : list Event) (n : Z) (e : Engine) :
  chronological (tempHist e) = true ->
  (forall s x, In s (tempHist e) -> In x (ingest_times evs ++ [n]) ->
               t s <= x) ->
  nondecreasing (ingest_times evs ++ [n]) = true ->
  chronological (tempHist (run evs e)) = true /\
  (forall s, In s (tempHist (run evs e)) -> t s <= n).
Proof.
  revert e. induction evs as [|ev evs IH]; intros e Hc Hle Hn.
  - split; [exact Hc|]. intros s Hs. apply (Hle s n Hs). now left.
  - destruct ev as [packet now0 now1|mins now|now];
      cbn [run fold_left handle ingest_times app nondecreasing] in *.
    + apply andb_prop in Hn as [Hfirst Hn].
      destruct (updateTelemetry_history packet now0 now1 e) as (amb & env & Hh).
      assert (Hsn : chronological (tempHist e ++ [mkSample now1 amb env]) = true).
      { apply chronological_snoc; [exact Hc|].
        intros s' Hs'. apply (Hle s' now1 Hs'). now left. }
      apply IH; [| |exact Hn].
      * rewrite Hh, (shift_while_filter _ _ Hsn).
        now apply chronological_filter.
      * intros s x Hs Hx. rewrite Hh, (shift_while_filter _ _ Hsn) in Hs.
        apply filter_In in Hs as [Hs _]. apply in_app_or in Hs as [Hs|Hs].
        -- apply (Hle s x Hs). now right.
        -- destruct Hs as [<-|[]]. cbn [t].
           rewrite forallb_forall in Hfirst. apply Z.leb_le, Hfirst, Hx.
    + apply IH; [| |exact Hn].
      * now apply onTempWindowChange_chronological.
      * intros s x Hs Hx. apply (Hle s x); [|exact Hx].
        unfold onTempWindowChange in Hs. cbn [tempHist] in Hs.
        rewrite (shift_while_filter _ _ Hc) in Hs.
        now apply filter_In in Hs.
    + apply IH; assumption.
Qed.

(** C8, as the code has it. As long as the clock read at the ingests does
    not run backwards,
    an ingest at time [now1] leaves in the history exactly the samples, old
    and new, whose time is not before [now1 - tempWindowMs]: none is older
    than the cutoff, and one at the cutoff stays. With the 5-minute window,
    ingests at 0, 60, ..., 360 s leave the samples from 60 s on, the one at
    0 s being dropped. *)
Theorem history_window :
  (forall (vol : number) (load : Z) (evs : list Event)
          (packet : option Packet) (now0 now1 : Z),
     nondecreasing (ingest_times evs ++ [now1]) = true ->
     let e := run evs (initial vol load) in
     let e' := updateTelemetry packet now0 now1 e in
     let cutoff := now1 - tempWindowMs e in
     Forall (fun s => cutoff <= t s) (tempHist e') /\
     exists amb env,
       tempHist e'
       = filter (fun s => cutoff <=? t s)
           (tempHist e ++ [mkSample now1 amb env])) /\
  (forall (vol : number) (load : Z),
     map t
       (tempHist
          (run [Ingest None 0 0; Ingest None 60000 60000;
                Ingest None 120000 120000; Ingest None 180000 180000;
                Ingest None 240000 240000; Ingest None 300000 300000;
                Ingest None 360000 360000]
             (initial vol load)))
     = [60000; 120000; 180000; 240000; 300000; 360000]).
Proof.
  split.
  - intros vol load evs packet now0 now1 Hn. cbv zeta.
    destruct (run_chronological evs now1 (initial vol load))
      as [Hc Hle]; [reflexivity|intros s x []|exact Hn|].
    destruct (updateTelemetry_history packet now0 now1
                (run evs (initial vol load))) as (amb & env & Hh).
    assert (Hsn : chronological
                    (tempHist (run evs (initial vol load))
                       ++ [mkSample now1 amb env]) = true).
    { apply chronological_snoc; [exact Hc|exact Hle]. }
    rewrite Hh, (shift_while_filter _ _ Hsn). split.
    + apply Forall_forall. intros s Hin.
      apply filter_In in Hin as [_ Hs]. lia.
    + now exists amb, env.
  - intros vol load. reflexivity.
Qed.

Lemma history_window_witness :
  Forall (fun s => 360000 - 300000 <= t s)
    (tempHist
       (updateTelemetry None 360000 360000
          (run [Ingest None 0 0; Ingest None 60000 60000;
                WindowChange (Some 5) 90000; Ingest None 120000 120000]
             (initial 118.6 0)))).
Proof.
  exact (proj1 (proj1 history_window 118.6%float 0
                  [Ingest None 0 0; Ingest None 60000 60000;
                   WindowChange (Some 5) 90000; Ingest None 120000 120000]
                  None 360000 360000 eq_refl)).
Defined.

(** C8, as the specification has it, fails when the clock steps back
    between ingests: the eviction looks at the front of the history only,
    so after ingests at 400 s, 0 s, 50 s and 700 s with the 5-minute
    window the samples of 0 s and 50 s are still in the history, although
    the cutoff is 400 s. *)
Lemma history_window_clock_steps_back :
  let e := run [Ingest None 400000 400000; Ingest None 0 0;
                Ingest None 50000 50000; Ingest None 700000 700000]
             (initial 118.6 0) in
  map t (tempHist e) = [400000; 0; 50000; 700000]%Z /\
  (700000 - tempWindowMs e = 400000)%Z.
Proof. vm_compute. split; reflexivity. Qed.

End DashboardProperties.

(** * Further properties of the firmware *)

Section FirmwareFurther.

Import Firmware.
Local Open Scope Z_scope.

(** ** Ready LED *)

Lemma half_odd (h now : Z) :
  0 < h -> Z.odd (now / h) = (h <=? now mod (2 * h)).
Proof.
  intros Hh.
  pose proof (Z.div_mod now (2 * h) ltac:(lia)) as Hd.
  pose proof (Z.mod_pos_bound now (2 * h) ltac:(lia)) as Hb.
  set (q := now / (2 * h)) in *. set (r := now mod (2 * h)) in *.
  destruct (Z.leb_spec h r).
  - replace (now / h) with (1 + 2 * q).
    + now rewrite Z.odd_add_mul_2.
    + apply (Z.div_unique now h (1 + 2 * q) (r - h)); lia.
  - replace (now / h) with (0 + 2 * q).
    + now rewrite Z.odd_add_mul_2.
    + apply (Z.div_unique now h (0 + 2 * q) r); lia.
Qed.

(** X1. On the 32-bit clock [millis()] the slow blink is a square wave
    with a period of 1000 ms (1 Hz): at every reading [now] of the clock
    the LED is low in the first 500 ms of each 1000 ms and high in the
    next 500 ms; 1000 ms later the level is the same as long as the clock
    has not wrapped; where it wraps past 2^32 - 1 in between, the wave
    jumps by 296 ms (2^32 modulo 1000), so the level is that of 704 ms
    later. *)
Theorem slowblink_waveform (now : Z) :
  0 <= now < 2 ^ 32 ->
  serviceReadyLed LED_BLINK_SLOW now = (500 <=? now mod 1000) /\
  (now + 1000 < 2 ^ 32 ->
     serviceReadyLed LED_BLINK_SLOW (uint32 (now + 1000))
     = serviceReadyLed LED_BLINK_SLOW now) /\
  (2 ^ 32 <= now + 1000 ->
     serviceReadyLed LED_BLINK_SLOW (uint32 (now + 1000))
     = (500 <=? (now + 704) mod 1000)).
Proof.
  intros Hnow.
  assert (H : forall n, serviceReadyLed LED_BLINK_SLOW n = (500 <=? n mod 1000)).
  { intros n. unfold serviceReadyLed. simpl.
    change (1000 / 2) with 500.
    rewrite land_1_odd. exact (half_odd 500 n ltac:(lia)). }
  split; [apply H|]. split; intros Hw; rewrite !H.
  - rewrite uint32_small by lia.
    replace (now + 1000) with (now + 1 * 1000) by lia.
    now rewrite Z.mod_add by lia.
  - rewrite uint32_wrapped by lia.
    replace (now + 1000 - 2 ^ 32) with (now + 704 + (-4294967) * 1000) by lia.
    now rewrite Z.mod_add by lia.
Qed.

Lemma slowblink_waveform_witness :
  serviceReadyLed LED_BLINK_SLOW 4294967295 = false /\
  serviceReadyLed LED_BLINK_SLOW (uint32 (4294967295 + 1000)) = true.
Proof.
  destruct (slowblink_waveform 4294967295 ltac:(lia)) as (H0 & _ & H2).
  split; [exact H0|exact (H2 ltac:(lia))].
Defined.

Lemma double_mod (now : Z) :
  serviceReadyLed LED_DOUBLE now = serviceReadyLed LED_DOUBLE (now mod 1200).
Proof.
  unfold serviceReadyLed. simpl. now rewrite Z.mod_mod by lia.
Qed.

Lemma high_ms_double_mod (len : nat) (a b : Z) :
  0 <= a -> a + Z.of_nat len <= 2 ^ 32 ->
  0 <= b -> b + Z.of_nat len <= 2 ^ 32 ->
  a mod 1200 = b mod 1200 ->
  high_ms LED_DOUBLE a len = high_ms LED_DOUBLE b len.
Proof.
  revert a b. induction len as [|len IH]; intros a b Ha Ha' Hb Hb' E;
    [reflexivity|].
  cbn [high_ms]. rewrite (double_mod a), (double_mod b), E. f_equal.
  destruct len as [|len']; [reflexivity|].
  rewrite (uint32_small (a + 1)), (uint32_small (b + 1)) by lia.
  apply IH; try lia.
  rewrite <- (Z.add_mod_idemp_l a), <- (Z.add_mod_idemp_l b) by lia.
  now rewrite E.
Qed.

Lemma all_from_spec (f : Z -> bool) (n : nat) (from z : Z) :
  all_from f from n = true -> from <= z < from + Z.of_nat n -> f z = true.
Proof.
  revert from. induction n as [|n IH]; intros from H Hz; [lia|].
  cbn [all_from] in H. apply andb_prop in H as [H0 H1].
  destruct (Z.eq_dec z from) as [->|Hne]; [exact H0|].
  apply (IH (from + 1) H1). lia.
Qed.

Lemma high_ms_app (ledMode : Z) (m n : nat) (a : Z) :
  0 <= a -> a + Z.of_nat (m + n) <= 2 ^ 32 ->
  high_ms ledMode a (m + n)
  = (high_ms ledMode a m + high_ms ledMode (a + Z.of_nat m) n)%nat.
Proof.
  revert a. induction m as [|m IH]; intros a Ha Hb.
  - cbn [high_ms Nat.add]. now rewrite Z.add_0_r.
  - cbn [high_ms Nat.add]. rewrite <- Nat.add_assoc. f_equal.
    destruct (Z.eq_dec (a + 1) (2 ^ 32)) as [E|E].
    + assert (m = 0%nat /\ n = 0%nat) as [-> ->] by lia. reflexivity.
    + rewrite uint32_small by lia. rewrite IH by lia.
      do 2 f_equal. lia.
Qed.

(** X2. On the 32-bit clock [millis()], and as long as the clock does
    not wrap in between: the double pulse repeats every 1200 ms, and in
    any 1200 ms, from whatever reading of the clock, it lights the LED for
    exactly 240 ms. Across the wrap it does not (2^32 is 496 modulo 1200):
    in the 1200 ms that start 500 ms before the wrap the LED is lit for
    480 ms. *)
Theorem double_pulse_duty :
  (forall from : Z,
     0 <= from -> from + 1200 <= 2 ^ 32 ->
     high_ms LED_DOUBLE from 1200 = 240%nat /\
     (from + 1200 < 2 ^ 32 ->
        serviceReadyLed LED_DOUBLE (uint32 (from + 1200))
        = serviceReadyLed LED_DOUBLE from)) /\
  high_ms LED_DOUBLE (2 ^ 32 - 500) 1200 = 480%nat.
Proof.
  split; [|vm_compute; reflexivity].
  intros from H0 H1. split.
  - pose proof (Z.mod_pos_bound from 1200 ltac:(lia)) as Hr.
    set (r := Z.to_nat (from mod 1200)).
    assert (Hrn : Z.of_nat r = from mod 1200) by (unfold r; lia).
    assert (Hcycle : high_ms LED_DOUBLE 0 1200 = 240%nat)
      by (vm_compute; reflexivity).
    assert (Hr0 : (r < 1200)%nat) by lia.
    assert (Hsplit : high_ms LED_DOUBLE from 1200
                     = high_ms LED_DOUBLE from ((1200 - r) + r))
      by (f_equal; lia).
    assert (Hcycle' : high_ms LED_DOUBLE 0 1200
                      = high_ms LED_DOUBLE 0 (r + (1200 - r)))
      by (f_equal; lia).
    rewrite Hsplit, high_ms_app by lia.
    rewrite (high_ms_double_mod (1200 - r) from (Z.of_nat r)); try lia;
      [|rewrite Hrn; now rewrite Z.mod_mod by lia].
    rewrite (high_ms_double_mod r (from + Z.of_nat (1200 - r)) 0); try lia.
    + rewrite Hcycle', high_ms_app, Z.add_0_l in Hcycle by lia.
      rewrite Nat.add_comm. exact Hcycle.
    + rewrite Nat2Z.inj_sub by lia. rewrite Hrn.
      rewrite (Z.div_mod from 1200) at 1 by lia.
      replace (1200 * (from / 1200) + from mod 1200
               + (Z.of_nat 1200 - from mod 1200))
        with (0 + (from / 1200 + 1) * 1200) by lia.
      now rewrite Z.mod_add by lia.
  - intros Hw. rewrite uint32_small by lia.
    rewrite (double_mod (from + 1200)), (double_mod from).
    replace (from + 1200) with (from + 1 * 1200) by lia.
    now rewrite Z.mod_add by lia.
Qed.

Lemma double_pulse_duty_witness :
  high_ms LED_DOUBLE 1000 1200 = 240%nat.
Proof.
  exact (proj1 (proj1 double_pulse_duty 1000 ltac:(lia) ltac:(lia))).
Defined.

(** ** Pacing *)

Lemma uint32_elapsed (last d : Z) :
  0 <= last < 2 ^ 32 -> 0 <= d < 2 ^ 32 ->
  uint32 (uint32 (last + d) - last) = d.
Proof.
  intros Hl Hd. unfold uint32.
  rewrite Zminus_mod_idemp_l.
  replace (last + d - last) with d by lia.
  now apply Z.mod_small.
Qed.

Lemma loop_mpl_clocks (b : Bus) (g : Globals) :
  g_lastSampleMs (loop_mpl b g) = g_lastSampleMs g /\
  g_lastDhtMs (loop_mpl b g) = g_lastDhtMs g.
Proof. unfold loop_mpl. now destruct (mplOk g). Qed.

Lemma loop_mlx_clocks (b : Bus) (g : Globals) :
  g_lastSampleMs (loop_mlx b g) = g_lastSampleMs g /\
  g_lastDhtMs (loop_mlx b g) = g_lastDhtMs g.
Proof.
  unfold loop_mlx.
  destruct (g_mlxOK g); [|now split].
  now destruct (mlxReadTempC (mlx_word b)).
Qed.

Lemma loop_dht_lastSample (b : Bus) (g : Globals) :
  g_lastSampleMs (loop_dht b g) = g_lastSampleMs g.
Proof.
  unfold loop_dht.
  destruct (DHT_PERIOD_MS <=? _); [|reflexivity].
  now destruct (dht_attempts 3 0 (dht_read b)) as [[t h]|].
Qed.

(** X4. The DHT is polled only in a sampling pass in which at least
    1200 ms have passed since its last poll, wrap-around of the clock
    included: a sampling pass that comes [e < 1200] ms after the last poll
    leaves the stored DHT readings and the time of the last poll as they
    were, and one with [e >= 1200] records the clock as the time of the
    last poll. With sampling passes 1000 ms apart the DHT is thus polled
    on every other pass. *)
Theorem dht_poll_pacing (b : Bus) (g : Globals) (d e : Z) :
  0 <= g_lastSampleMs g < 2 ^ 32 -> 0 <= g_lastDhtMs g < 2 ^ 32 ->
  1000 <= d < 2 ^ 32 -> 0 <= e < 2 ^ 32 ->
  millis b = uint32 (g_lastSampleMs g + d) ->
  millis b = uint32 (g_lastDhtMs g + e) ->
  let g' := snd (loop b g) in
  (e < 1200 ->
     g_lastDhtMs g' = g_lastDhtMs g /\
     s_dhtTempC g' = s_dhtTempC g /\ s_dhtHum g' = s_dhtHum g) /\
  (1200 <= e -> g_lastDhtMs g' = millis b).
Proof.
  intros Hs Hl Hd He Hm Hm'. cbv zeta.
  assert (E1 : uint32 (millis b - g_lastSampleMs g) = d)
    by (rewrite Hm; apply uint32_elapsed; lia).
  assert (E2 : uint32 (millis b - g_lastDhtMs g) = e)
    by (rewrite Hm'; apply uint32_elapsed; lia).
  unfold loop, TELEMETRY_PERIOD_MS. cbv zeta. rewrite E1.
  destruct (Z.leb_spec 1000 d); [|lia]. cbn [snd].
  match goal with |- context [loop_mlx b (loop_mpl b ?g0)] =>
    set (g1 := loop_mlx b (loop_mpl b g0));
    assert (Hlast : g_lastDhtMs g1 = g_lastDhtMs g)
      by (unfold g1;
          rewrite (proj2 (loop_mlx_clocks _ _)), (proj2 (loop_mpl_clocks _ _));
          reflexivity);
    assert (Hkeep : s_dhtTempC g1 = s_dhtTempC g /\ s_dhtHum g1 = s_dhtHum g)
  end.
  { unfold g1, loop_mlx, loop_mpl. cbn.
    destruct (mplOk g), (g_mlxOK g); cbn;
      destruct (mlxReadTempC (mlx_word b)); now split. }
  unfold loop_dht, DHT_PERIOD_MS. rewrite Hlast, E2.
  split; intros H0.
  - destruct (Z.leb_spec 1200 e); [lia|]. split; assumption.
  - destruct (Z.leb_spec 1200 e); [|lia].
    now destruct (dht_attempts 3 0 (dht_read b)) as [[t h]|].
Qed.

Lemma dht_poll_pacing_witness :
  let g := mkGlobals F32.NAN F32.NAN F32.NAN (F32.of_Z 21) (F32.of_Z 40)
             F32.NAN 5000 5000 false LED_SOLID true false in
  let b := mkBus 6000 6000 (F32.of_Z 1500) (F32.of_Z 20) (F32.of_Z 101320)
             None (fun _ => (F32.of_Z 25, F32.of_Z 50)) in
  g_lastDhtMs (snd (loop b g)) = 5000 /\
  s_dhtTempC (snd (loop b g)) = F32.of_Z 21 /\
  s_dhtHum (snd (loop b g)) = F32.of_Z 40.
Proof.
  intros g b.
  refine (proj1 (dht_poll_pacing b g 1000 1000 _ _ _ _ eq_refl eq_refl) _);
    unfold g; cbn [g_lastSampleMs g_lastDhtMs]; lia.
Defined.

(** ** Rounding never makes a NaN *)

Section Rounding.

Variables prec emax : Z.

Lemma shr_1_nonneg (mrs : shr_record) :
  0 <= shr_m mrs -> 0 <= shr_m (shr_1 mrs).
Proof.
  destruct mrs as [m r s]. cbn [shr_m]. intros H.
  destruct m as [|[p|p|]|p]; cbn; lia.
Qed.

Lemma iter_shr_1_nonneg (p : positive) (mrs : shr_record) :
  0 <= shr_m mrs -> 0 <= shr_m (iter_pos shr_1 p mrs).
Proof.
  revert mrs. induction p as [p IH|p IH|]; intros mrs H; cbn [iter_pos].
  - apply IH, IH. now apply shr_1_nonneg.
  - now apply IH, IH.
  - now apply shr_1_nonneg.
Qed.

Lemma shr_fexp_nonneg (m e : Z) (l : location) :
  0 <= m -> 0 <= shr_m (fst (shr_fexp prec emax m e l)).
Proof.
  intros H. unfold shr_fexp, shr.
  assert (H0 : 0 <= shr_m (shr_record_of_loc m l))
    by (destruct l as [|[| |]]; exact H).
  destruct (fexp prec emax (Zdigits2 m + e) - e); cbn [fst];
    try exact H0.
  now apply iter_shr_1_nonneg.
Qed.

Lemma round_nearest_even_nonneg (m : Z) (l : location) :
  0 <= m -> 0 <= round_nearest_even m l.
Proof.
  intros H. destruct l as [|[| |]]; cbn; try lia.
  destruct (Z.even m); lia.
Qed.

Lemma binary_round_aux_not_nan (sx : bool) (mx ex : Z) (lx : location) :
  0 <= mx -> binary_round_aux prec emax sx mx ex lx <> S754_nan.
Proof.
  intros H. unfold binary_round_aux.
  pose proof (shr_fexp_nonneg mx ex lx H) as H1.
  destruct (shr_fexp prec emax mx ex lx) as [mrs' e']. cbn [fst] in H1.
  pose proof (shr_fexp_nonneg _ e' loc_Exact
                (round_nearest_even_nonneg _ (loc_of_shr_record mrs') H1)) as H2.
  destruct (shr_fexp prec emax _ e' loc_Exact) as [mrs'' e''].
  cbn [fst] in H2.
  destruct (shr_m mrs'') as [|p|p]; try discriminate; try lia.
  destruct (e'' <=? emax - prec); discriminate.
Qed.

Lemma SFmul_finite_not_nan (x : spec_float) (s : bool) (m : positive) (e : Z) :
  x <> S754_nan -> SFmul prec emax x (S754_finite s m e) <> S754_nan.
Proof.
  intros Hx. destruct x as [sx|sx| |sx mx ex]; cbn [SFmul];
    try discriminate; try congruence.
  apply binary_round_aux_not_nan. lia.
Qed.

Lemma SFdiv_finite_not_nan (x : spec_float) (s : bool) (m : positive) (e : Z) :
  x <> S754_nan -> SFdiv prec emax x (S754_finite s m e) <> S754_nan.
Proof.
  intros Hx. destruct x as [sx|sx| |sx mx ex]; cbn [SFdiv];
    try discriminate; try congruence.
  unfold SFdiv_core_binary.
  set (e' := Z.min _ _). set (m' := match ex - e - e' with
                                    | Z0 => Z.pos mx
                                    | Z.pos _ => Z.shiftl (Z.pos mx) (ex - e - e')
                                    | Z.neg _ => 0
                                    end).
  assert (Hm : 0 <= m').
  { unfold m'. destruct (ex - e - e') eqn:E; try lia.
    apply Z.shiftl_nonneg. lia. }
  pose proof (Z_div_mod m' (Z.pos m) ltac:(lia)) as Hdm.
  destruct (Z.div_eucl m' (Z.pos m)) as [q r].
  apply binary_round_aux_not_nan. nia.
Qed.

End Rounding.

Lemma isnan_false (x : F32.t) : F32.isnan x = false <-> x <> S754_nan.
Proof. destruct x; cbn; split; congruence. Qed.

(** The unit normalizer never turns a reading into a NaN. *)
Lemma scalePressure_not_nan (raw : float) :
  F32.isnan raw = false ->
  F32.isnan (scalePressureToHectoPascal raw) = false.
Proof.
  intros H. unfold scalePressureToHectoPascal.
  destruct (F32.gt raw (F32.of_Z 2000)).
  - apply isnan_false. apply isnan_false in H.
    now apply SFdiv_finite_not_nan.
  - destruct (F32.lt raw (F32.of_Z 50)); [|exact H].
    apply isnan_false. apply isnan_false in H.
    now apply SFmul_finite_not_nan.
Qed.

(** ** The DHT block *)

(** The DHT block leaves both stored readings as they were, or leaves two
    readings that are not NaN. *)
Lemma dht_poll_atomic_parts (b : Bus) (g : Globals) :
  (s_dhtTempC (loop_dht b g) = s_dhtTempC g /\
   s_dhtHum (loop_dht b g) = s_dhtHum g) \/
  (F32.isnan (s_dhtTempC (loop_dht b g)) = false /\
   F32.isnan (s_dhtHum (loop_dht b g)) = false).
Proof.
  unfold loop_dht.
  destruct (DHT_PERIOD_MS <=? _)%Z; [|now left].
  pose proof (dht_attempts_spec (dht_read b) 3 0) as Hspec.
  destruct (dht_attempts 3 0 (dht_read b)) as [[t0 h0]|]; cbn; [|now left].
  right. destruct Hspec as (k & _ & Hr & Hok & _).
  rewrite <- Hr in Hok. apply readDhtOnce_ok in Hok. tauto.
Qed.

(** ** Last known good values *)

Lemma loop_mpl_keeps (b : Bus) (g : Globals) :
  (F32.isnan (s_alt_m g) = false ->
     F32.isnan (s_alt_m (loop_mpl b g)) = false) /\
  (F32.isnan (s_mplTempC g) = false ->
     F32.isnan (s_mplTempC (loop_mpl b g)) = false) /\
  (F32.isnan (s_pres_hPa g) = false ->
     F32.isnan (s_pres_hPa (loop_mpl b g)) = false) /\
  s_dhtTempC (loop_mpl b g) = s_dhtTempC g /\
  s_dhtHum (loop_mpl b g) = s_dhtHum g /\
  s_envObjC (loop_mpl b g) = s_envObjC g /\
  g_overheat (loop_mpl b g) = g_overheat g /\
  g_ledMode (loop_mpl b g) = g_ledMode g /\
  g_mlxOK (loop_mpl b g) = g_mlxOK g.
Proof.
  unfold loop_mpl. destruct (mplOk g); [|tauto]. cbn.
  repeat split.
  - destruct (F32.isnan (mpl_getAltitude b)) eqn:E; cbn; congruence.
  - destruct (F32.isnan (mpl_getTemperature b)) eqn:E; cbn; congruence.
  - destruct (F32.isnan (mpl_getPressure b)) eqn:E; cbn; [congruence|].
    intros _. now apply scalePressure_not_nan.
Qed.

Lemma loop_mlx_keeps (b : Bus) (g : Globals) :
  s_alt_m (loop_mlx b g) = s_alt_m g /\
  s_mplTempC (loop_mlx b g) = s_mplTempC g /\
  s_pres_hPa (loop_mlx b g) = s_pres_hPa g /\
  s_dhtTempC (loop_mlx b g) = s_dhtTempC g /\
  s_dhtHum (loop_mlx b g) = s_dhtHum g /\
  g_mlxOK (loop_mlx b g) = g_mlxOK g /\
  (s_envObjC (loop_mlx b g) = s_envObjC g \/
   F32.isfinite (s_envObjC (loop_mlx b g)) = true).
Proof.
  unfold loop_mlx. destruct (g_mlxOK g) eqn:Ok; [|tauto].
  destruct (mlxReadTempC (mlx_word b)) as [tC|] eqn:E; [|tauto]. cbn.
  repeat split; try assumption. right. now apply (mlxReadTempC_finite _ _ E).
Qed.

Lemma loop_dht_keeps (b : Bus) (g : Globals) :
  s_alt_m (loop_dht b g) = s_alt_m g /\
  s_mplTempC (loop_dht b g) = s_mplTempC g /\
  s_pres_hPa (loop_dht b g) = s_pres_hPa g /\
  s_envObjC (loop_dht b g) = s_envObjC g /\
  g_overheat (loop_dht b g) = g_overheat g /\
  g_ledMode (loop_dht b g) = g_ledMode g /\
  g_mlxOK (loop_dht b g) = g_mlxOK g /\
  (F32.isnan (s_dhtTempC g) = false ->
     F32.isnan (s_dhtTempC (loop_dht b g)) = false) /\
  (F32.isnan (s_dhtHum g) = false ->
     F32.isnan (s_dhtHum (loop_dht b g)) = false).
Proof.
  destruct (dht_poll_atomic_parts b g) as [(Ht & Hh)|(Ht & Hh)].
  - unfold loop_dht in *.
    destruct (DHT_PERIOD_MS <=? _)%Z; [|tauto].
    destruct (dht_attempts 3 0 (dht_read b)) as [[t h]|]; cbn in *;
      repeat split; congruence.
  - unfold loop_dht in *.
    destruct (DHT_PERIOD_MS <=? _)%Z; [|tauto].
    destruct (dht_attempts 3 0 (dht_read b)) as [[t h]|]; cbn in *;
      repeat split; congruence.
Qed.

Lemma loop_keeps (b : Bus) (g : Globals) (f : Globals -> float) :
  In f [s_alt_m; s_mplTempC; s_pres_hPa; s_dhtTempC; s_dhtHum; s_envObjC] ->
  F32.isnan (f g) = false -> F32.isnan (f (snd (loop b g))) = false.
Proof.
  intros Hin Hf. unfold loop. cbv zeta.
  destruct (TELEMETRY_PERIOD_MS <=? _)%Z; [|exact Hf]. cbn [snd].
  match goal with |- context [loop_mpl b ?g0] => set (g1 := g0) end.
  assert (Hf1 : F32.isnan (f g1) = false).
  { cbn in Hin. unfold g1.
    repeat (destruct Hin as [<-|Hin]; [exact Hf|]). destruct Hin. }
  clearbody g1.
  pose proof (loop_mpl_keeps b g1) as M.
  pose proof (loop_mlx_keeps b (loop_mpl b g1)) as X.
  pose proof (loop_dht_keeps b (loop_mlx b (loop_mpl b g1))) as D.
  set (g2 := loop_mpl b g1) in *. set (g3 := loop_mlx b g2) in *.
  set (g4 := loop_dht b g3) in *.
  destruct M as (M1 & M2 & M3 & M4 & M5 & M6 & _).
  destruct X as (X1 & X2 & X3 & X4 & X5 & _ & X6).
  destruct D as (D1 & D2 & D3 & D4 & _ & _ & _ & D5 & D6).
  cbn in Hin.
  destruct Hin as [<-|[<-|[<-|[<-|[<-|[<-|[]]]]]]].
  - rewrite D1, X1. auto.
  - rewrite D2, X2. auto.
  - rewrite D3, X3. auto.
  - apply D5. rewrite X4, M4. exact Hf1.
  - apply D6. rewrite X5, M5. exact Hf1.
  - rewrite D4. destruct X6 as [->|Hfin].
    + rewrite M6. exact Hf1.
    + now destruct (s_envObjC g3).
Qed.

(** X5. A stored reading is never lost: once one of the six stored
    measurements (altitude, MPL temperature, pressure, DHT temperature,
    DHT humidity, envelope temperature) is not NaN, no series of passes of
    the loop, whatever the sensors answer, makes it NaN again. *)
Theorem readings_never_lost (bs : list Bus) (g : Globals)
    (f : Globals -> float) :
  In f [s_alt_m; s_mplTempC; s_pres_hPa; s_dhtTempC; s_dhtHum; s_envObjC] ->
  F32.isnan (f g) = false -> F32.isnan (f (loops bs g)) = false.
Proof.
  intros Hin. revert g. unfold loops.
  induction bs as [|b bs IH]; intros g Hf; [exact Hf|].
  cbn [fold_left]. apply IH. now apply loop_keeps.
Qed.

Lemma readings_never_lost_witness :
  F32.isnan
    (s_pres_hPa
       (loops
          [mkBus 2000 2000 F32.NAN F32.NAN F32.NAN None
             (fun _ => (F32.NAN, F32.NAN));
           mkBus 3000 3000 F32.NAN F32.NAN (F32.of_Z 20) None
             (fun _ => (F32.NAN, F32.NAN))]
          (mkGlobals F32.NAN F32.NAN (F32.dec 10132 1) F32.NAN F32.NAN
             F32.NAN 1000 0 false LED_SOLID true false)))
  = false.
Proof.
  apply (readings_never_lost _ _ s_pres_hPa).
  - cbn. tauto.
  - reflexivity.
Defined.

(** ** A whole pass of the loop *)

Lemma loop_pass_parts (b : Bus) (m1 m2 : Z) (g : Globals) (o : Oled) :
  loop_pass b m1 m2 (g, o)
  = (fst (loop b g),
     (snd (loop b g), fst (loop_oled m1 m2 (snd (loop b g)) o)),
     snd (loop_oled m1 m2 (snd (loop b g)) o)).
Proof.
  unfold loop_pass. cbn [fst snd].
  destruct (loop b g) as [level g1]. cbn [fst snd].
  now destruct (loop_oled m1 m2 g1 o) as [o1 page].
Qed.

Lemma loop_samples (b : Bus) (g : Globals) :
  (TELEMETRY_PERIOD_MS <=? uint32 (millis b - g_lastSampleMs g)) = true ->
  let g' := snd (loop b g) in
  g_lastSampleMs g' = millis b /\
  (mplOk g = true ->
     (F32.isnan (mpl_getAltitude b) = false ->
        s_alt_m g' = mpl_getAltitude b) /\
     (F32.isnan (mpl_getTemperature b) = false ->
        s_mplTempC g' = mpl_getTemperature b) /\
     (F32.isnan (mpl_getPressure b) = false ->
        s_pres_hPa g' = scalePressureToHectoPascal (mpl_getPressure b))) /\
  (g_mlxOK g = true ->
     forall tC, mlxReadTempC (mlx_word b) = Some tC -> s_envObjC g' = tC).
Proof.
  intros Due. cbv zeta. unfold loop. cbv zeta. rewrite Due. cbn [snd].
  match goal with |- context [loop_mpl b ?g0] => set (g1 := g0) end.
  pose proof (loop_mpl_keeps b g1) as (_ & _ & _ & _ & _ & _ & _ & _ & M9).
  pose proof (loop_mlx_keeps b (loop_mpl b g1)) as (X1 & X2 & X3 & _).
  pose proof (loop_dht_keeps b (loop_mlx b (loop_mpl b g1)))
    as (D1 & D2 & D3 & D4 & _).
  split; [|split].
  - rewrite loop_dht_lastSample.
    rewrite (proj1 (loop_mlx_clocks _ _)), (proj1 (loop_mpl_clocks _ _)).
    reflexivity.
  - intros Ok. rewrite D1, D2, D3, X1, X2, X3.
    unfold loop_mpl, g1. cbn [mplOk]. rewrite Ok. cbn.
    repeat split; intros ->; reflexivity.
  - intros Ok tC E. rewrite D4. unfold loop_mlx.
    rewrite M9. unfold g1 at 1. cbn [g_mlxOK]. rewrite Ok, E. reflexivity.
Qed.

(** X3. The sampling pace survives the wrap-around of [millis()]: when
    [d] milliseconds (fewer than 2^32) have passed since the last sample,
    whether or not the 32-bit clock wrapped in between, a pass of the loop
    with [d < 1000] leaves the telemetry globals (the stored readings, the
    two pacing clocks, the overheat flag, the LED mode and the two sensor
    flags) as they were, and a pass with [d >= 1000] samples: it records
    the clock as the time of the last sample, stores every answer of a
    present MPL that is not NaN (the pressure rescaled) and the reading of
    a present MLX that [mlxReadTempC] accepts. Either way the one other
    global the pass may write is the time of the last refresh of the
    display, and only with the display present. *)
Theorem loop_pacing_wraps (b : Bus) (m1 m2 : Z) (g : Globals) (o : Oled)
    (d : Z) :
  0 <= g_lastSampleMs g < 2 ^ 32 -> 0 <= d < 2 ^ 32 ->
  millis b = uint32 (g_lastSampleMs g + d) ->
  let g' := fst (snd (fst (loop_pass b m1 m2 (g, o)))) in
  let o' := snd (snd (fst (loop_pass b m1 m2 (g, o)))) in
  (d < 1000 -> g' = g) /\
  (1000 <= d ->
     g_lastSampleMs g' = millis b /\
     (mplOk g = true ->
        (F32.isnan (mpl_getAltitude b) = false ->
           s_alt_m g' = mpl_getAltitude b) /\
        (F32.isnan (mpl_getTemperature b) = false ->
           s_mplTempC g' = mpl_getTemperature b) /\
        (F32.isnan (mpl_getPressure b) = false ->
           s_pres_hPa g' = scalePressureToHectoPascal (mpl_getPressure b))) /\
     (g_mlxOK g = true ->
        forall tC, mlxReadTempC (mlx_word b) = Some tC ->
                   s_envObjC g' = tC)) /\
  g_oledOK o' = g_oledOK o /\
  (g_lastOledMs o' = g_lastOledMs o \/
   g_oledOK o = true /\ g_lastOledMs o' = m2).
Proof.
  intros Hl Hd Hm. cbv zeta. rewrite loop_pass_parts. cbn [fst snd].
  assert (E : uint32 (millis b - g_lastSampleMs g) = d)
    by (rewrite Hm; now apply uint32_elapsed).
  split; [|split; [|split]].
  - intros H. unfold loop, TELEMETRY_PERIOD_MS. cbv zeta. rewrite E.
    destruct (Z.leb_spec 1000 d); [lia|reflexivity].
  - intros H. apply loop_samples. rewrite E. unfold TELEMETRY_PERIOD_MS.
    now apply Z.leb_le.
  - unfold loop_oled. now destruct (g_oledOK o && _).
  - unfold loop_oled. destruct (g_oledOK o) eqn:Ok; cbn [andb];
      [|now left].
    destruct (OLED_PERIOD_MS <=? _); cbn [fst g_lastOledMs];
      [right; now split|now left].
Qed.

Lemma loop_pacing_wraps_witness :
  let g := mkGlobals F32.NAN F32.NAN F32.NAN F32.NAN F32.NAN F32.NAN
             4294967000 4294967000 false LED_SOLID true false in
  let b := mkBus 704 704 (F32.of_Z 1500) (F32.of_Z 20) (F32.of_Z 101320)
             None (fun _ => (F32.NAN, F32.NAN)) in
  let g' := fst (snd (fst (loop_pass b 705 706 (g, mkOled true 4294967100)))) in
  g_lastSampleMs g' = 704 /\ s_alt_m g' = F32.of_Z 1500.
Proof.
  intros g b.
  destruct (loop_pacing_wraps b 705 706 g (mkOled true 4294967100) 1000)
    as (_ & H & _).
  - unfold g; cbn [g_lastSampleMs]; lia.
  - lia.
  - reflexivity.
  - destruct (H ltac:(lia)) as (H1 & H2 & _).
    split; [exact H1|]. exact (proj1 (H2 eq_refl) eq_refl).
Defined.

(** ** Overheat flag, LED mode and stored temperature *)

Lemma ge_le_gap (x : float) (a b : positive) (e0 : Z) :
  (b < a)%positive ->
  F32.ge x (S754_finite false a e0) = true ->
  F32.le x (S754_finite false b e0) = false.
Proof.
  intros Hab. unfold F32.ge, F32.le, SFleb.
  destruct x as [s|s| |s m e]; cbn [SFcompare]; try reflexivity;
    destruct s; try reflexivity; try discriminate.
  rewrite (Z.compare_antisym e e0).
  destruct (Z.compare_spec e e0) as [He|He|He]; cbn [CompOpp];
    try reflexivity; try discriminate.
  change (Pos.compare_cont Eq ?a ?b) with (Pos.compare a b).
  destruct (Pos.compare_spec a m) as [Hm|Hm|Hm];
    destruct (Pos.compare_spec m b) as [Hn|Hn|Hn];
    try reflexivity; try discriminate; lia.
Qed.

Lemma ge200_not_le195 (x : float) :
  F32.ge x (F32.of_Z 200) = true -> F32.le x (F32.of_Z 195) = false.
Proof.
  assert (E200 : F32.of_Z 200 = S754_finite false 13107200 (-16))
    by (vm_compute; reflexivity).
  assert (E195 : F32.of_Z 195 = S754_finite false 12779520 (-16))
    by (vm_compute; reflexivity).
  rewrite E200, E195. apply ge_le_gap. reflexivity.
Qed.

Lemma overheat_step (envF : float) (over : bool) :
  let st := overheat envF
              (over, if over then LED_BLINK_FAST else LED_SOLID) in
  snd st = (if fst st then LED_BLINK_FAST else LED_SOLID) /\
  (fst st = true -> F32.le envF (F32.of_Z 195) = false) /\
  (fst st = false -> F32.ge envF (F32.of_Z 200) = false).
Proof.
  cbv zeta. unfold overheat, OVERHEAT_ON_F, OVERHEAT_OFF_F.
  destruct (F32.ge envF (F32.of_Z 200)) eqn:Ge;
    destruct (F32.le envF (F32.of_Z 195)) eqn:Le;
    destruct over; cbn [negb andb fst snd];
    repeat split; try discriminate; try reflexivity;
    try (apply ge200_not_le195 in Ge; congruence).
Qed.

Lemma loop_overheat_inv (b : Bus) (g : Globals) :
  overheat_inv g -> overheat_inv (snd (loop b g)).
Proof.
  intros Inv. unfold loop. cbv zeta.
  destruct (TELEMETRY_PERIOD_MS <=? _)%Z; [|exact Inv]. cbn [snd].
  match goal with |- context [loop_mpl b ?g0] => set (g1 := g0) end.
  assert (Inv1 : overheat_inv g1) by exact Inv. clearbody g1.
  pose proof (loop_mpl_keeps b g1) as (_ & _ & _ & _ & _ & M6 & M7 & M8 & _).
  set (g2 := loop_mpl b g1) in *.
  assert (Inv2 : overheat_inv g2).
  { unfold overheat_inv. now rewrite M6, M7, M8. }
  clearbody g2.
  pose proof (loop_dht_keeps b (loop_mlx b g2))
    as (_ & _ & _ & D4 & D5 & D6 & _).
  unfold overheat_inv. rewrite D4, D5, D6.
  destruct (g_mlxOK g2) eqn:Ok;
    [|unfold loop_mlx; rewrite Ok; exact Inv2].
  destruct (mlxReadTempC (mlx_word b)) as [tC|] eqn:E;
    [|unfold loop_mlx; rewrite Ok, E; exact Inv2].
  destruct (loop_mlx_feeds_overheat b g2 tC Ok E) as [Hs Hst].
  destruct Inv2 as (I1 & _). rewrite I1 in Hst.
  pose proof (overheat_step (c2f tC) (g_overheat g2)) as St. cbv zeta in St.
  rewrite <- Hst in St. cbn [fst snd] in St. now rewrite Hs.
Qed.

(** X6. After [setup()], through any series of passes of the loop and
    whatever the sensors answer, the LED mode is the fast blink exactly
    when the overheat flag is set and solid otherwise; and the flag agrees
    with the envelope temperature last stored: set, that temperature is
    above 195 degrees Fahrenheit; cleared, it is below 200 (or there is
    none yet). *)
Theorem led_tracks_overheat (bs : list Bus) (mplOk_ mlxOK_ : bool)
    (now : Z) :
  let g := loops bs (after_setup mplOk_ mlxOK_ now) in
  g_ledMode g = (if g_overheat g then LED_BLINK_FAST else LED_SOLID) /\
  (g_overheat g = true ->
     (c2f (s_envObjC g) <=? F32.of_Z 195)%f32 = false) /\
  (g_overheat g = false ->
     (c2f (s_envObjC g) >=? F32.of_Z 200)%f32 = false).
Proof.
  cbv zeta. change (overheat_inv (loops bs (after_setup mplOk_ mlxOK_ now))).
  assert (H0 : overheat_inv (after_setup mplOk_ mlxOK_ now)).
  { unfold overheat_inv. cbn. repeat split; discriminate. }
  revert H0. generalize (after_setup mplOk_ mlxOK_ now). unfold loops.
  induction bs as [|b bs IH]; intros g Inv; [exact Inv|].
  cbn [fold_left]. apply IH. now apply loop_overheat_inv.
Qed.

(** ** The MLX word *)

(** X7. In terms of the 16-bit word read from the MLX: the read is
    accepted exactly for the words 8658 to 28657 (about -100 to 300
    degrees Celsius); an accepted word is at or above the overheat
    threshold of 200 degrees Fahrenheit exactly from 18325 on, and at or
    below the recovery threshold of 195 exactly up to 18185. *)
Theorem mlx_word_thresholds (raw : Z) :
  0 <= raw < 65536 ->
  (mlxReadTempC (Some raw) = None <-> raw < 8658 \/ 28657 < raw) /\
  (forall tC : float,
     mlxReadTempC (Some raw) = Some tC ->
     ((c2f tC >=? OVERHEAT_ON_F)%f32 = true <-> 18325 <= raw) /\
     ((c2f tC <=? OVERHEAT_OFF_F)%f32 = true <-> raw <= 18185)).
Proof.
  intros Hraw.
  assert (H : all_from (mlx_word_check 8658 28657 18325 18185)
                0 (Z.to_nat 65536) = true) by (vm_compute; reflexivity).
  pose proof (all_from_spec _ _ _ raw H ltac:(lia)) as Hc.
  unfold mlx_word_check in Hc.
  destruct (mlxReadTempC (Some raw)) as [t0|].
  - apply andb_prop in Hc as [Hc Hoff]. apply andb_prop in Hc as [Hc Hon].
    apply andb_prop in Hc as [Hlo Hhi].
    apply Bool.eqb_prop in Hon, Hoff.
    split; [split; [discriminate|lia]|].
    intros tC [= <-]. rewrite Hon, Hoff. split; [apply Z.leb_le|apply Z.leb_le].
  - split; [split; [lia|reflexivity]|discriminate].
Qed.

Lemma mlx_word_thresholds_witness :
  (c2f (F32.of_Z 18325 * F32.dec 2 2 - F32.dec 27315 2)
     >=? OVERHEAT_ON_F)%f32 = true.
Proof.
  exact (proj2 (proj1 (proj2 (mlx_word_thresholds 18325 ltac:(lia))
                         _ eq_refl)) ltac:(lia)).
Defined.

(** ** Status page *)

Local Open Scope string_scope.

Lemma row_ok (g : Globals) :
  (In "MPL: [OK]" (oledStatusPage g) -> fst (fst (online g)) = true) /\
  (In "DHT11: [OK]" (oledStatusPage g) -> snd (fst (online g)) = true) /\
  (In "MLX: [OK]" (oledStatusPage g) -> snd (online g) = true).
Proof.
  unfold oledStatusPage.
  destruct (online g) as [[m d] x]. cbn [fst snd].
  repeat split; intros H; cbn in H;
    destruct m, d, x; cbn in H;
    repeat (destruct H as [H|H]; try discriminate H); try reflexivity;
    destruct H.
Qed.

Lemma isfinite_not_nan (x : float) :
  F32.isfinite x = true -> F32.isnan x = false.
Proof. now destruct x. Qed.

(** X8. The status page and the JSON agree: whenever the page marks a
    sensor [OK], the record written from the same state carries that
    sensor's values and not [null]: altitude and pressure for the MPL,
    temperature (as the ambient one, with the tag DHT) and humidity for
    the DHT, the envelope temperature for the MLX. *)
Theorem status_page_matches_json (String_float : float -> nat -> string)
    (g : Globals) (ms : Z) :
  exists env amb hum pres alt src,
    buildTelemetryJson String_float g ms
    = wire_record env amb hum pres alt src (String_uint32 ms) /\
    (In "MPL: [OK]" (oledStatusPage g) ->
       alt = String_float (s_alt_m g) 1%nat /\
       pres = String_float (s_pres_hPa g) 1%nat) /\
    (In "DHT11: [OK]" (oledStatusPage g) ->
       amb = String_float (c2f (s_dhtTempC g)) 1%nat /\
       hum = String_float (s_dhtHum g) 0%nat /\ src = "DHT") /\
    (In "MLX: [OK]" (oledStatusPage g) ->
       env = String_float (c2f (s_envObjC g)) 1%nat).
Proof.
  do 6 eexists. split; [apply buildTelemetryJson_record|].
  destruct (row_ok g) as (Hm & Hd & Hx). unfold online in *.
  cbn [fst snd] in *.
  split; [|split].
  - intros H. apply Hm in H.
    apply andb_prop in H as [H Hp]. apply andb_prop in H as [_ Ha].
    now rewrite (isfinite_not_nan _ Ha), (isfinite_not_nan _ Hp).
  - intros H. apply Hd in H. apply andb_prop in H as [Ht Hh].
    now rewrite (isfinite_not_nan _ Ht), (isfinite_not_nan _ Hh).
  - intros H. apply Hx in H. apply andb_prop in H as [_ He].
    now rewrite (isfinite_not_nan _ He).
Qed.

(** X9. Before the first sample the status page marks the three sensors
    as missing; and once it marks the MLX [OK] it does so after every
    further pass of the loop, whatever the sensors answer. *)
Theorem mlx_row_stays_ok (bs : list Bus) (g : Globals) :
  (forall (mplOk_ mlxOK_ : bool) (now : Z),
     oledStatusPage (after_setup mplOk_ mlxOK_ now)
     = ["MPL: [X]"; "MLX: [X]"; "DHT11: [X]"]) /\
  (In "MLX: [OK]" (oledStatusPage g) ->
   In "MLX: [OK]" (oledStatusPage (loops bs g))).
Proof.
  split.
  - intros mplOk_ mlxOK_ now. unfold oledStatusPage, online. cbn.
    now rewrite !andb_false_r.
  - intros H. apply (proj2 (proj2 (row_ok g))) in H.
    assert (Hk : snd (online (loops bs g)) = true).
    { revert g H. unfold loops.
      induction bs as [|b bs IH]; intros g H; [exact H|].
      cbn [fold_left]. apply IH. clear IH.
      unfold online in *. cbn [snd] in *.
      apply andb_prop in H as [Hok Hfin].
      unfold loop. cbv zeta.
      destruct (TELEMETRY_PERIOD_MS <=? _)%Z; cbn [snd];
        [|now rewrite Hok, Hfin].
      match goal with |- context [loop_mpl b ?g0] => set (g1 := g0) end.
      assert (H1 : g_mlxOK g1 = true /\ F32.isfinite (s_envObjC g1) = true)
        by now split.
      clearbody g1. destruct H1 as [Hok1 Hfin1].
      pose proof (loop_mpl_keeps b g1) as (_ & _ & _ & _ & _ & M6 & _ & _ & M9).
      pose proof (loop_mlx_keeps b (loop_mpl b g1))
        as (_ & _ & _ & _ & _ & X6 & X7).
      pose proof (loop_dht_keeps b (loop_mlx b (loop_mpl b g1)))
        as (_ & _ & _ & D4 & _ & _ & D7 & _).
      rewrite D7, D4, X6, M9, Hok1. cbn [andb].
      destruct X7 as [->|Hf]; [now rewrite M6|exact Hf]. }
    unfold oledStatusPage. destruct (online (loops bs g)) as [[m d] x].
    cbn [snd] in Hk. subst x. cbn. tauto.
Qed.

(** ** Sensors missing at start-up *)

Lemma loop_flags (b : Bus) (g : Globals) :
  mplOk (snd (loop b g)) = mplOk g /\ g_mlxOK (snd (loop b g)) = g_mlxOK g.
Proof.
  assert (M : forall g, mplOk (loop_mpl b g) = mplOk g /\
                        g_mlxOK (loop_mpl b g) = g_mlxOK g).
  { intros g0. unfold loop_mpl. destruct (mplOk g0) eqn:E; now split. }
  assert (X : forall g, mplOk (loop_mlx b g) = mplOk g /\
                        g_mlxOK (loop_mlx b g) = g_mlxOK g).
  { intros g0. unfold loop_mlx. destruct (g_mlxOK g0) eqn:E; [|now split].
    destruct (mlxReadTempC (mlx_word b)); now split. }
  assert (D : forall g, mplOk (loop_dht b g) = mplOk g /\
                        g_mlxOK (loop_dht b g) = g_mlxOK g).
  { intros g0. unfold loop_dht. destruct (DHT_PERIOD_MS <=? _)%Z; [|now split].
    destruct (dht_attempts 3 0 (dht_read b)) as [[? ?]|]; now split. }
  unfold loop. cbv zeta.
  destruct (TELEMETRY_PERIOD_MS <=? _)%Z; [|now split]. cbn [snd].
  match goal with |- context [loop_mpl b ?g0] => set (g1 := g0) end.
  destruct (M g1) as [M1 M2]. destruct (X (loop_mpl b g1)) as [X1 X2].
  destruct (D (loop_mlx b (loop_mpl b g1))) as [D1 D2].
  rewrite D1, D2, X1, X2, M1, M2. now split.
Qed.

Lemma loop_without_mpl (b : Bus) (g : Globals) :
  mplOk g = false ->
  s_alt_m (snd (loop b g)) = s_alt_m g /\
  s_mplTempC (snd (loop b g)) = s_mplTempC g /\
  s_pres_hPa (snd (loop b g)) = s_pres_hPa g.
Proof.
  intros H. unfold loop. cbv zeta.
  destruct (TELEMETRY_PERIOD_MS <=? _)%Z; [|tauto]. cbn [snd].
  match goal with |- context [loop_mpl b ?g0] => set (g1 := g0) end.
  pose proof (loop_mlx_keeps b (loop_mpl b g1)) as (X1 & X2 & X3 & _).
  pose proof (loop_dht_keeps b (loop_mlx b (loop_mpl b g1)))
    as (D1 & D2 & D3 & _).
  rewrite D1, D2, D3, X1, X2, X3.
  unfold loop_mpl, g1. cbn [mplOk]. rewrite H. cbn. tauto.
Qed.

Lemma loop_without_mlx (b : Bus) (g : Globals) :
  g_mlxOK g = false ->
  s_envObjC (snd (loop b g)) = s_envObjC g /\
  g_overheat (snd (loop b g)) = g_overheat g /\
  g_ledMode (snd (loop b g)) = g_ledMode g.
Proof.
  intros H. unfold loop. cbv zeta.
  destruct (TELEMETRY_PERIOD_MS <=? _)%Z; [|tauto]. cbn [snd].
  match goal with |- context [loop_mpl b ?g0] => set (g1 := g0) end.
  pose proof (loop_mpl_keeps b g1) as (_ & _ & _ & _ & _ & M6 & M7 & M8 & M9).
  pose proof (loop_dht_keeps b (loop_mlx b (loop_mpl b g1)))
    as (_ & _ & _ & D4 & D5 & D6 & _).
  assert (E : loop_mlx b (loop_mpl b g1) = loop_mpl b g1).
  { unfold loop_mlx. rewrite M9. unfold g1. cbn [g_mlxOK]. now rewrite H. }
  rewrite D4, D5, D6, E, M6, M7, M8. unfold g1. cbn. tauto.
Qed.

(** X17. A sensor that was not found at start-up is never read again:
    without the MPL, the stored altitude, MPL temperature and pressure
    stay NaN through every pass of the loop; without the MLX, the stored
    envelope temperature stays NaN, the overheat flag is never set and the
    LED stays solid, whatever the bus would answer. *)
Theorem missing_sensor_never_read (bs : list Bus) (mplOk_ mlxOK_ : bool)
    (now : Z) :
  let g := loops bs (after_setup mplOk_ mlxOK_ now) in
  (mplOk_ = false ->
     s_alt_m g = F32.NAN /\ s_mplTempC g = F32.NAN /\
     s_pres_hPa g = F32.NAN) /\
  (mlxOK_ = false ->
     s_envObjC g = F32.NAN /\ g_overheat g = false /\
     g_ledMode g = LED_SOLID).
Proof.
  cbv zeta.
  assert (G : forall bs g,
             (mplOk g = false ->
                s_alt_m (loops bs g) = s_alt_m g /\
                s_mplTempC (loops bs g) = s_mplTempC g /\
                s_pres_hPa (loops bs g) = s_pres_hPa g) /\
             (g_mlxOK g = false ->
                s_envObjC (loops bs g) = s_envObjC g /\
                g_overheat (loops bs g) = g_overheat g /\
                g_ledMode (loops bs g) = g_ledMode g)).
  { clear. unfold loops.
    induction bs as [|b bs IH]; intros g; [tauto|].
    cbn [fold_left]. destruct (loop_flags b g) as [F1 F2].
    destruct (IH (snd (loop b g))) as [I1 I2]. split; intros H.
    - destruct (loop_without_mpl b g H) as (A & B & C).
      rewrite <- F1 in H. destruct (I1 H) as (A' & B' & C').
      now rewrite A', B', C', A, B, C.
    - destruct (loop_without_mlx b g H) as (A & B & C).
      rewrite <- F2 in H. destruct (I2 H) as (A' & B' & C').
      now rewrite A', B', C', A, B, C. }
  destruct (G bs (after_setup mplOk_ mlxOK_ now)) as [G1 G2].
  split; intros ->; [apply G1|apply G2]; reflexivity.
Qed.

Lemma missing_sensor_never_read_witness :
  g_overheat
    (loops
       [mkBus 2000 2000 (F32.of_Z 1500) (F32.of_Z 20) (F32.of_Z 101320)
          (Some 20000) (fun _ => (F32.of_Z 25, F32.of_Z 50))]
       (after_setup true false 0))
  = false.
Proof.
  exact (proj1 (proj2 (proj2 (missing_sensor_never_read
           [mkBus 2000 2000 (F32.of_Z 1500) (F32.of_Z 20) (F32.of_Z 101320)
              (Some 20000) (fun _ => (F32.of_Z 25, F32.of_Z 50))]
           true false 0) eq_refl))).
Defined.

End FirmwareFurther.

(** * Further properties of the dashboard *)

Section DashboardFurther.

Import Dashboard.
Local Open Scope string_scope.
Local Open Scope Z_scope.

(** ** Link status *)



(** ** Round-trip times *)

Lemma push_rtt (all : list Z) (rtt : Z) :
  let buf := skipn (List.length all - 20) all in
  let rtts := (buf ++ [rtt])%list in
  (if (20 <? List.length rtts)%nat then tl rtts else rtts)
  = skipn (List.length (all ++ [rtt]) - 20) (all ++ [rtt])%list.
Proof.
  cbv zeta. rewrite !length_app, length_skipn.
  change (List.length [rtt]) with 1%nat.
  destruct (Nat.leb_spec (List.length all) 19) as [Hs|Hl].
  - replace (List.length all - 20)%nat with 0%nat by lia.
    replace (List.length all + 1 - 20)%nat with 0%nat by lia.
    cbn [skipn]. replace (List.length all - 0 + 1)%nat with (List.length all + 1)%nat by lia.
    destruct (Nat.ltb_spec 20 (List.length all + 1)); [lia|reflexivity].
  - replace (List.length all - (List.length all - 20) + 1)%nat with 21%nat by lia.
    cbn [Nat.ltb Nat.leb].
    replace (List.length all + 1 - 20)%nat with (S (List.length all - 20)) by lia.
    rewrite skipn_app.
    replace (S (List.length all - 20) - List.length all)%nat with 0%nat by lia.
    cbn [skipn].
    assert (Hk : (List.length all - 20 < List.length all)%nat) by lia.
    revert Hk. generalize (List.length all - 20)%nat as k. clear Hl.
    induction all as [|a all IH]; intros k Hk; [cbn in Hk; lia|].
    destruct k as [|k]; [reflexivity|].
    cbn [skipn]. apply IH. cbn in Hk. lia.
Qed.

(** X11. The buffer of round-trip times holds the times of the last 20
    answered polls, in order, and nothing else: unanswered polls leave no
    entry, and the buffer never grows beyond 20. *)
Theorem rtt_buffer_last_20 (polls : list (option (option Packet) * Z * Z))
    (e : Engine) :
  let rtts := recentRtts (snd (polls_at polls (e, link0))) in
  rtts = skipn (List.length (answered polls) - 20) (answered polls) /\
  (List.length rtts <= 20)%nat.
Proof.
  cbv zeta.
  assert (G : forall polls all e l,
             recentRtts l = skipn (List.length all - 20) all ->
             recentRtts (snd (polls_at polls (e, l)))
             = skipn (List.length (all ++ answered polls) - 20)
                 (all ++ answered polls)%list).
  { clear. induction polls as [|[[resp rtt] now] polls IH]; intros all e l Hl.
    - cbn. now rewrite app_nil_r.
    - unfold polls_at in *. cbn [fold_left answered].
      destruct resp as [data|].
      + cbn [poll fst]. 
        replace (all ++ rtt :: answered polls)%list
          with ((all ++ [rtt]) ++ answered polls)%list
          by (now rewrite <- app_assoc).
        apply IH. cbn [recentRtts]. rewrite Hl. apply push_rtt.
      + cbn [poll fst]. now apply IH. }
  rewrite (G polls [] e link0 eq_refl). cbn [app]. split; [reflexivity|].
  rewrite length_skipn. lia.
Qed.

(** ** Flight timer *)




(** ** Altitude, humidity and pressure fields *)

(** X13. A null reading is shown differently by the fields: the humidity
    and the pressure show dashes, but the altitude, which is converted
    with [Number] first, shows [0.0 ft]; so do a null baseline and, with
    both null, the altitude change. An altitude that is NaN shows dashes,
    as does its change. *)
Theorem null_altitude_reads_zero (e : Engine) :
  (humidityPct (state e) = JNull -> fst (render_readings e) = "-- %") /\
  (pressurehPa (state e) = JNull -> snd (render_readings e) = "-- atm") /\
  (altitudeM (state e) = JNull ->
     fst (fst (render_altitude e)) = "0.0 ft") /\
  (initialAlt e = JNull -> snd (fst (render_altitude e)) = "0.0 ft") /\
  (altitudeM (state e) = JNull -> initialAlt e = JNull ->
     snd (render_altitude e) = "0.0 ft") /\
  (altitudeM (state e) = JNum nan ->
     fst (fst (render_altitude e)) = "-- ft" /\
     snd (render_altitude e) = "-- ft").
Proof.
  unfold render_readings, render_altitude. cbn [fst snd].
  split; [|split; [|split; [|split; [|split]]]].
  - intros H. now rewrite H.
  - intros H. now rewrite H.
  - intros H. now rewrite H.
  - intros H. now rewrite H.
  - intros H H'. now rewrite H, H'.
  - intros H. rewrite H. split; reflexivity.
Qed.

Lemma null_altitude_reads_zero_witness :
  let e := mkEngine 118.6%float
             (mkState JNull JNull JNull JNull JNull 5000%float "MPL")
             JNull 0%float None 300000 [] in
  fst (fst (render_altitude e)) = "0.0 ft".
Proof.
  intros e.
  exact (proj1 (proj2 (proj2 (null_altitude_reads_zero e))) eq_refl).
Defined.

(** ** Baseline *)

Lemma handle_baseline_ok (e : Engine) (ev : Event) :
  baseline_ok (initialAlt e) = true ->
  baseline_ok (initialAlt (handle e ev)) = true.
Proof.
  intros H. destruct ev as [packet now0 now1|mins now|now]; cbn [handle].
  - unfold updateTelemetry, pushTempSample. cbn [initialAlt].
    destruct (initialAlt e) eqn:E; cbn [andb]; try exact H.
    destruct (Number_isFinite
                (altitudeM (assign (state e) packet (snapshot_time packet now0))))
      eqn:F; [|reflexivity].
    unfold baseline_ok. rewrite F. now destruct (altitudeM _).
  - exact H.
  - unfold resetFlight. cbn [initialAlt].
    destruct (Number_isFinite (altitudeM (state e))) eqn:F; [|reflexivity].
    unfold baseline_ok. rewrite F. now destruct (altitudeM _).
Qed.

(** X14. Whatever the page goes through, the baseline is null or a
    finite number, so the baseline field always shows a number; and only
    a reset changes a baseline that is set: an ingest or a change of the
    window leaves it. *)
Theorem baseline_null_or_finite (evs : list Event) (vol : number)
    (load : Z) :
  let e := run evs (initial vol load) in
  baseline_ok (initialAlt e) = true /\
  Number_isFinite (JNum (Number (initialAlt e))) = true /\
  (forall (e0 : Engine) (ev : Event),
     initialAlt e0 <> JNull ->
     (forall now, ev <> Reset now) ->
     initialAlt (handle e0 ev) = initialAlt e0).
Proof.
  cbv zeta.
  assert (B : baseline_ok (initialAlt (run evs (initial vol load))) = true).
  { assert (H0 : baseline_ok (initialAlt (initial vol load)) = true)
      by reflexivity.
    revert H0. generalize (initial vol load). unfold run.
    induction evs as [|ev evs IH]; intros e H; [exact H|].
    cbn [fold_left]. apply IH. now apply handle_baseline_ok. }
  split; [exact B|split].
  - destruct (initialAlt (run evs (initial vol load))) as [| |x];
      try discriminate B; [reflexivity|exact B].
  - intros e0 ev Hset Hev.
    destruct ev as [packet now0 now1|mins now|now]; cbn [handle].
    + unfold updateTelemetry, pushTempSample. cbn [initialAlt].
      destruct (initialAlt e0); try reflexivity. now contradiction Hset.
    + reflexivity.
    + now contradiction (Hev now).
Qed.

(** ** Window selector *)

(** X15. A change of the window selector sets the window to the chosen
    number of minutes, 5 when the selector gives no number or 0, and, on a
    history in the order of its times, keeps exactly the samples that are
    not older than the new window counted back from the clock: it never
    adds a sample back, and it touches nothing else of the engine. *)
Theorem window_change_trims (mins : option Z) (now : Z) (e : Engine) :
  chronological (tempHist e) = true ->
  let e' := onTempWindowChange mins now e in
  let m := match mins with
           | Some m => if m =? 0 then 5 else m
           | None => 5
           end in
  tempWindowMs e' = m * 60000 /\
  tempHist e' = filter (fun s => now - m * 60000 <=? t s) (tempHist e) /\
  chronological (tempHist e') = true /\
  (state e', initialAlt e', verticalSpeed e', flightStartMs e', VOLUME_M3 e')
  = (state e, initialAlt e, verticalSpeed e, flightStartMs e, VOLUME_M3 e).
Proof.
  intros H. cbv zeta. unfold onTempWindowChange.
  cbn [tempWindowMs tempHist state initialAlt verticalSpeed flightStartMs
       VOLUME_M3].
  set (m := match mins with
            | Some m => if m =? 0 then 5 else m
            | None => 5
            end).
  replace (m * 60 * 1000) with (m * 60000) by lia.
  rewrite (shift_while_filter _ _ H).
  repeat split. now apply chronological_filter.
Qed.

Lemma window_change_trims_witness :
  let e := mkEngine 118.6%float
             (mkState JNull JNull JNull JNull JNull 5000%float "MPL")
             JNull 0%float None 300000
             [mkSample 0 nan nan; mkSample 60000 nan nan;
              mkSample 240000 nan nan] in
  tempHist (onTempWindowChange (Some 2) 300000 e) = [mkSample 240000 nan nan].
Proof.
  intros e.
  exact (proj1 (proj2 (window_change_trims (Some 2) 300000 e eq_refl))).
Defined.

(** ** Lift at equal temperatures *)

Local Open Scope float_scope.

Lemma SFsub_diag (x : spec_float) :
  match x with
  | S754_zero _ | S754_finite _ _ _ =>
      SFsub FloatOps.prec FloatOps.emax x x = S754_zero false
  | _ => SFsub FloatOps.prec FloatOps.emax x x = S754_nan
  end.
Proof.
  destruct x as [s|s| |s m e]; cbn [SFsub].
  - now destruct s.
  - now destruct s.
  - reflexivity.
  - now rewrite Z.sub_diag.
Qed.

Lemma finite_SF (v : number) :
  is_finite v = true ->
  match Prim2SF v with
  | S754_zero _ | S754_finite _ _ _ => True
  | _ => False
  end.
Proof.
  unfold is_finite. intros H. apply negb_true_iff in H.
  apply orb_false_iff in H as [Hn Hi].
  unfold Prim2SF. rewrite Hn. destruct (is_zero v); [exact I|]. rewrite Hi.
  destruct (Z.frexp v) as [r ex].
  destruct (shr_fexp _ _ _ _ _) as [sh e']. now destruct (shr_m sh).
Qed.

Lemma of_SF (x : number) (y : spec_float) : Prim2SF x = y -> x = SF2Prim y.
Proof. intros <-. symmetry. apply SF2Prim_Prim2SF. Qed.

(** A difference of a number with itself is [+0], or NaN when the number
    is not finite. *)
Lemma sub_diag (x : number) :
  (x - x = 0 \/ x - x = nan) /\ (is_finite x = true -> x - x = 0).
Proof.
  pose proof (sub_spec x x) as H. unfold SF64sub in H.
  pose proof (SFsub_diag (Prim2SF x)) as D.
  pose proof (finite_SF x) as F.
  destruct (Prim2SF x) as [s|s| |s m e]; rewrite D in H;
    apply of_SF in H; cbn [SF2Prim] in H; split; auto;
    intros Hf; now destruct (F Hf).
Qed.

Lemma zero_mul_finite (v : number) :
  is_finite v = true -> 0 * v = 0 \/ 0 * v = neg_zero.
Proof.
  intros H. pose proof (finite_SF v H) as F.
  pose proof (mul_spec 0 v) as M. unfold SF64mul in M.
  change (Prim2SF 0) with (S754_zero false) in M.
  destruct (Prim2SF v) as [s|s| |s m e]; try destruct F;
    cbn [SFmul xorb] in M; apply of_SF in M; destruct s; cbn in M; auto.
Qed.

Lemma nan_mul (v : number) : nan * v = nan.
Proof.
  pose proof (mul_spec nan v) as M. unfold SF64mul in M.
  change (Prim2SF nan) with S754_nan in M. cbn [SFmul] in M.
  now apply of_SF in M.
Qed.

(** X16. With the envelope at the temperature of the ambient air the
    page shows no lift, whatever the pressure and the envelope's (finite)
    volume: both lift fields read zero when the air density comes out
    finite, and dashes when it does not. *)
Theorem equal_temperatures_no_lift (e : Engine) :
  is_finite (VOLUME_M3 e) = true ->
  envelopeTempF (state e) = ambientTempF (state e) ->
  (render_lift e = ("0.00 lbf", "0.0 N")%string \/
   render_lift e = ("-- lbf", "-- N")%string) /\
  (is_finite
     (densityAir (pressurehPa (state e)) (ambientTempF (state e))) = true ->
   render_lift e = ("0.00 lbf", "0.0 N")%string).
Proof.
  intros HV Heq. unfold render_lift, computeLift. cbv zeta.
  cbn [lbf newtons]. rewrite Heq.
  set (rho := densityAir (pressurehPa (state e)) (ambientTempF (state e))).
  destruct (sub_diag rho) as [D Dfin].
  assert (Z0 : rho - rho = 0 ->
               (fmtLift ((rho - rho) * VOLUME_M3 e * G / 4.4482216152605)
                  "lbf" 2,
                fmtLift ((rho - rho) * VOLUME_M3 e * G) "N" 1)
               = ("0.00 lbf", "0.0 N")%string).
  { intros ->. destruct (zero_mul_finite _ HV) as [->| ->]; reflexivity. }
  split.
  - destruct D as [D|D]; [left; now apply Z0|right].
    rewrite D, nan_mul. reflexivity.
  - intros Hf. apply Z0. now apply Dfin.
Qed.

Lemma equal_temperatures_no_lift_witness :
  let e := mkEngine 118.6
             (mkState (JNum 70) (JNum 70) (JNum 40) (JNum 1013.2)
                (JNum 1500) 5000 "DHT")
             JNull 0 None 300000%Z [] in
  render_lift e = ("0.00 lbf", "0.0 N")%string.
Proof.
  intros e.
  exact (proj2 (equal_temperatures_no_lift e eq_refl eq_refl) eq_refl).
Defined.

(** ** After a reset *)

(** X18. Right after a reset taken at a finite altitude the page reads
    as a fresh start: the altitude change shows [0.0 ft], the baseline
    field shows what the altitude field shows, the timer shows 00:00:00
    and the smoothed vertical speed is 0. *)
Theorem reset_reads_fresh (now : Z) (e : Engine) :
  Number_isFinite (altitudeM (state e)) = true ->
  let e' := resetFlight now e in
  snd (render_altitude e') = "0.0 ft"%string /\
  snd (fst (render_altitude e')) = fst (fst (render_altitude e')) /\
  render_flightTime now e' = "00:00:00"%string /\
  verticalSpeed e' = 0.
Proof.
  intros H. cbv zeta. unfold resetFlight, render_altitude, render_flightTime.
  cbn [state initialAlt flightStartMs verticalSpeed fst snd]. rewrite H.
  destruct (altitudeM (state e)) as [| |a]; try discriminate H.
  cbn [Number Number_isFinite] in *. rewrite H. cbn [andb].
  rewrite (proj2 (sub_diag a) H).
  repeat split. now rewrite Z.sub_diag.
Qed.

Lemma reset_reads_fresh_witness :
  let e := mkEngine 118.6
             (mkState (JNum 150) (JNum 70) (JNum 40) (JNum 1013.2)
                (JNum 1500) 5000 "DHT")
             (JNum 1400) 2.5 None 300000%Z [] in
  snd (render_altitude (resetFlight 1700000000000 e)) = "0.0 ft"%string.
Proof.
  intros e. exact (proj1 (reset_reads_fresh 1700000000000 e eq_refl)).
Defined.

End DashboardFurther.
